(** * Support request pipeline: classification, processing task, notification task

    A shallow embedding of [app/services/ai_classifier.py],
    [app/services/teams_notifier.py], [app/models.py] and [app/tasks.py].

    Conventions.
    - Python [str] values are modelled by [string] (8-bit characters);
      [lower] maps [A-Z] to [a-z] and leaves every other character alone.
    - Python [float] values are rationals, plus NaN and the two infinities.
    - A function that can raise returns [exn + A]; [inl e] is "raises e".
    - The relational store is a finite map from ids to rows; the session
      object [request] is a row value that [commit] writes back.
    - Everything the outside world decides (HTTP answers, whether a commit
      or an enqueue goes through, the clock) is an explicit input. *)

From Stdlib Require Import ZArith QArith Bool List Ascii String Lia.
From stdpp Require Import base option gmap.
Import ListNotations.

Set Warnings "-register-all".

Local Open Scope string_scope.
Local Open Scope Z_scope.

(** ** Python values *)

Module Py.

Inductive pyfloat : Type :=
| FFinite (q : Q)
| FNan
| FPosInf
| FNegInf.

(** The values [json.loads] can produce (a dict keeps its keys in order). *)
Inductive pyval : Type :=
| PyNone
| PyBool (b : bool)
| PyInt (z : Z)
| PyFloat (f : pyfloat)
| PyStr (s : string)
| PyList (l : list pyval)
| PyDict (d : list (string * pyval)).

(** The exception classes the code meets; each is a subclass of [Exception]. *)
Inductive exn : Type :=
| ValueError (request_id : Z)      (* "Request {request_id} not found" *)
| AttributeError
| TypeError
| JSONDecodeError
| TimeoutError                     (* asyncio.TimeoutError *)
| TransportError                   (* httpx.HTTPError and friends *)
| OperationalError.                (* store or broker unreachable *)

Inductive exn_class : Type :=
| ClsException
| ClsValueError
| ClsAttributeError
| ClsTypeError
| ClsJSONDecodeError
| ClsTimeoutError
| ClsTransportError
| ClsOperationalError.

Definition class_of (e : exn) : exn_class :=
  match e with
  | ValueError _ => ClsValueError
  | AttributeError => ClsAttributeError
  | TypeError => ClsTypeError
  | JSONDecodeError => ClsJSONDecodeError
  | TimeoutError => ClsTimeoutError
  | TransportError => ClsTransportError
  | OperationalError => ClsOperationalError
  end.

Definition exn_class_eqb (c d : exn_class) : bool :=
  match c, d with
  | ClsException, ClsException
  | ClsValueError, ClsValueError
  | ClsAttributeError, ClsAttributeError
  | ClsTypeError, ClsTypeError
  | ClsJSONDecodeError, ClsJSONDecodeError
  | ClsTimeoutError, ClsTimeoutError
  | ClsTransportError, ClsTransportError
  | ClsOperationalError, ClsOperationalError => true
  | _, _ => false
  end.

(** [isinstance(e, cls)]: every class above derives from [Exception]. *)
Definition isinstance (e : exn) (cls : exn_class) : bool :=
  match cls with
  | ClsException => true
  | _ => exn_class_eqb (class_of e) cls
  end.

(** [d.get(key, default)] on a dict given as its items. *)
Fixpoint dict_get (d : list (string * pyval)) (key : string) (default : pyval) : pyval :=
  match d with
  | [] => default
  | (k, v) :: rest => if String.eqb k key then v else dict_get rest key default
  end.

(** [x.get(key, default)] on an arbitrary value: only a dict has [get]. *)
Definition py_get (x : pyval) (key : string) (default : pyval) : exn + pyval :=
  match x with
  | PyDict d => inr (dict_get d key default)
  | _ => inl AttributeError
  end.

(** [len(x)]: defined on str, list and dict, [TypeError] otherwise. *)
Definition py_len (x : pyval) : exn + nat :=
  match x with
  | PyStr s => inr (String.length s)
  | PyList l => inr (List.length l)
  | PyDict d => inr (List.length d)
  | _ => inl TypeError
  end.

(** [isinstance(x, (int, float))]; [bool] is a subclass of [int]. *)
Definition is_int_or_float (x : pyval) : bool :=
  match x with
  | PyBool _ | PyInt _ | PyFloat _ => true
  | _ => false
  end.

Definition float_lt (f : pyfloat) (q : Q) : bool :=
  match f with
  | FFinite x => negb (Qle_bool q x)
  | FNegInf => true
  | FNan | FPosInf => false
  end.

Definition float_gt (f : pyfloat) (q : Q) : bool :=
  match f with
  | FFinite x => negb (Qle_bool x q)
  | FPosInf => true
  | FNan | FNegInf => false
  end.

(** [x < n] and [x > n] for a numeric [x] and an int literal [n]. *)
Definition num_lt (x : pyval) (n : Z) : bool :=
  match x with
  | PyBool b => (if b then 1 else 0) <? n
  | PyInt z => z <? n
  | PyFloat f => float_lt f (inject_Z n)
  | _ => false
  end.

Definition num_gt (x : pyval) (n : Z) : bool :=
  match x with
  | PyBool b => n <? (if b then 1 else 0)
  | PyInt z => n <? z
  | PyFloat f => float_gt f (inject_Z n)
  | _ => false
  end.

(** [kw in text] for two strings. *)
Fixpoint str_in (kw text : string) : bool :=
  String.prefix kw text ||
  match text with
  | EmptyString => false
  | String _ rest => str_in kw rest
  end.

Definition lower_ascii (c : ascii) : ascii :=
  let n := nat_of_ascii c in
  if ((65 <=? n) && (n <=? 90))%nat then ascii_of_nat (n + 32) else c.

(** [s.lower()]. *)
Fixpoint lower (s : string) : string :=
  match s with
  | EmptyString => EmptyString
  | String c rest => String (lower_ascii c) (lower rest)
  end.

(** [s[:n]]. *)
Definition str_take (n : nat) (s : string) : string := String.substring 0 n s.

(** The characters [str.strip()] removes. *)
Definition is_space (c : ascii) : bool :=
  let n := nat_of_ascii c in
  ((9 <=? n) && (n <=? 13) || (28 <=? n) && (n <=? 32) || (n =? 133) || (n =? 160))%nat.

Fixpoint lstrip (s : string) : string :=
  match s with
  | EmptyString => EmptyString
  | String c rest => if is_space c then lstrip rest else s
  end.

Fixpoint rstrip (s : string) : string :=
  match s with
  | EmptyString => EmptyString
  | String c rest =>
      match rstrip rest with
      | EmptyString => if is_space c then EmptyString else String c EmptyString
      | kept => String c kept
      end
  end.

(** [s.strip()]. *)
Definition strip (s : string) : string := rstrip (lstrip s).

(** What an HTTP call does: it raises, or it answers with a status code. *)
Inductive http_result (A : Type) : Type :=
| Raises (e : exn)
| Responds (status_code : Z) (body : A).
Arguments Raises {A} e.
Arguments Responds {A} status_code body.

(** Sequencing of computations that may raise. *)
Definition bind {A B : Type} (m : exn + A) (k : A -> exn + B) : exn + B :=
  match m with
  | inl e => inl e
  | inr a => k a
  end.

End Py.

Notation "'let*' x ':=' m 'in' k" := (Py.bind m (fun x => k))
  (at level 10, x name, m at level 100, k at level 200).
Import Py.

(** ** [app/services/ai_classifier.py] *)

Module Classifier.

(** The dict [classify_request] returns.  [model] and [timestamp] are the
    two keys only [validate_classification_result] adds; [timestamp] holds
    the instant whose [isoformat()] the code stores. *)
Record classification : Type := {
  category : string;
  summary : pyval;
  confidence : pyval;
  method : string;
  model : option string;
  timestamp : option Z
}.

(** [self.ollama_url], [self.model], [self.timeout] from [__init__]. *)
Record config : Type := {
  ollama_url : string;
  ollama_model : string;
  timeout : Z
}.

(** [os.getenv] defaults. *)
Definition default_config : config :=
  {| ollama_url := "http://ollama:11434";
     ollama_model := "llama3.1:8b";
     timeout := 60 |}.

(** [self.fallback_categories], in insertion order. *)
Definition fallback_categories : list (string * string) :=
  [ ("cancel", "cancellation_request");
    ("refund", "cancellation_request");
    ("stop", "cancellation_request");
    ("billing", "billing");
    ("payment", "billing");
    ("invoice", "billing");
    ("technical", "technical_issue");
    ("bug", "technical_issue");
    ("error", "technical_issue");
    ("crash", "technical_issue");
    ("feature", "feature_request");
    ("suggestion", "feature_request");
    ("complaint", "complaint");
    ("problem", "complaint") ].

Definition valid_categories : list string :=
  [ "billing"; "technical_issue"; "cancellation_request";
    "feature_request"; "complaint"; "general_inquiry"; "other" ].

(** The text the keyword scan runs over. *)
Definition fallback_text (subject description : string) : string :=
  lower (subject ++ " " ++ description).

(** The [for keyword, category in ...items()] loop: the first hit. *)
Definition first_keyword (text : string) : option (string * string) :=
  List.find (fun entry => str_in (fst entry) text) fallback_categories.

Definition fallback_classify (subject description : string) : classification :=
  let text := fallback_text subject description in
  match first_keyword text with
  | Some (keyword, cat) =>
      {| category := cat;
         summary := PyStr ("Fallback classification: " ++ cat ++ " (keyword: " ++ keyword ++ ")");
         confidence := PyFloat (FFinite 0.6);
         method := "fallback";
         model := None;
         timestamp := None |}
  | None =>
      {| category := "general_inquiry";
         summary := PyStr "General inquiry - requires manual review";
         confidence := PyFloat (FFinite 0.5);
         method := "fallback";
         model := None;
         timestamp := None |}
  end.

(** The remote model service as one call of [classify_request] sees it.
    [generate]'s body is what [response.json()] yields, [None] when the
    body is not JSON. *)
Record service : Type := {
  health : http_result unit;               (* GET  {ollama_url}/api/version *)
  generate : http_result (option pyval);   (* POST {ollama_url}/api/generate *)
  utcnow : Z                               (* datetime.utcnow() *)
}.

Definition check_ollama_health (svc : service) : bool :=
  match health svc with
  | Responds code _ => code =? 200
  | Raises _ => false                      (* bare except: return False *)
  end.

(** The result [parse_ai_response] makes up when nothing parses. *)
Definition parse_default : pyval :=
  PyDict [ ("category", PyStr "general_inquiry");
           ("summary", PyStr "AI parsing failed - manual review needed");
           ("confidence", PyFloat (FFinite 0.3)) ].

(** [category not in valid_categories] compares with [==]: a value that
    is not a str equals none of the entries. *)
Definition in_valid_categories (v : pyval) : bool :=
  match v with
  | PyStr s => existsb (String.eqb s) valid_categories
  | _ => false
  end.

Definition category_text (v : pyval) : string :=
  match v with
  | PyStr s => s
  | _ => "general_inquiry"
  end.

(** [summary[:497] + "..."]; list + str is a [TypeError], a dict cannot
    be sliced. *)
Definition truncate_summary (v : pyval) : exn + pyval :=
  match v with
  | PyStr s => inr (PyStr (str_take 497 s ++ "..."))
  | _ => inl TypeError
  end.

Section Libraries.

(** [json.loads], [None] standing for [JSONDecodeError]. *)
Variable json_loads : string -> option pyval.
(** [re.findall(json_pattern, text)]. *)
Variable re_findall : string -> list string.

(** The [for match in matches] loop: the first match that decodes. *)
Fixpoint first_decoded (matches : list string) : option pyval :=
  match matches with
  | [] => None
  | m :: rest =>
      match json_loads m with
      | Some v => Some v
      | None => first_decoded rest
      end
  end.

Definition parse_ai_response (ai_response : pyval) : exn + pyval :=
  match ai_response with
  | PyStr text =>
      match json_loads (strip text) with
      | Some v => inr v
      | None =>
          match first_decoded (re_findall text) with
          | Some v => inr v
          | None => inr parse_default
          end
      end
  | _ => inl AttributeError              (* no strip() on a non-str *)
  end.

Definition validate_classification_result
    (cfg : config) (now : Z) (result : pyval) (subject description : string)
    : exn + classification :=
  let* category := py_get result "category" (PyStr "general_inquiry") in
  let category :=
    if negb (in_valid_categories category) then PyStr "general_inquiry" else category in
  let* summary := py_get result "summary" (PyStr "No summary provided") in
  let* n := py_len summary in
  let* summary := if (500 <? n)%nat then truncate_summary summary else inr summary in
  let* confidence := py_get result "confidence" (PyFloat (FFinite 0.7)) in
  let confidence :=
    if negb (is_int_or_float confidence) || num_lt confidence 0 || num_gt confidence 1
    then PyFloat (FFinite 0.7) else confidence in
  inr {| category := category_text category;
         summary := summary;
         confidence := confidence;
         method := "ollama_ai";
         model := Some (ollama_model cfg);
         timestamp := Some now |}.

(** The body of the [try] in [classify_request]. *)
Definition remote_classify
    (cfg : config) (svc : service) (subject description : string)
    : exn + classification :=
  match generate svc with
  | Raises e => inl e
  | Responds code body =>
      if negb (code =? 200) then inr (fallback_classify subject description)
      else
        let* ollama_result :=
          match body with Some v => inr v | None => inl JSONDecodeError end in
        let* ai_response := py_get ollama_result "response" (PyStr "") in
        let* result := parse_ai_response ai_response in
        validate_classification_result cfg (utcnow svc) result subject description
  end.

Definition classify_request
    (cfg : config) (svc : service) (subject description : string)
    : exn + classification :=
  if negb (check_ollama_health svc) then inr (fallback_classify subject description)
  else
    match remote_classify cfg svc subject description with
    | inr result => inr result
    | inl e =>
        if isinstance e ClsTimeoutError
        then inr (fallback_classify subject description)   (* except asyncio.TimeoutError *)
        else if isinstance e ClsException
        then inr (fallback_classify subject description)   (* except Exception *)
        else inl e
    end.

End Libraries.

End Classifier.

(** ** [app/models.py] *)

Module Models.

(** A row of [support_requests].  The primary key [id] is the key under
    which the row sits in the store, so it is not repeated in the row.
    Datetimes are instants on the UTC clock. *)
Record SupportRequest : Type := {
  customer_name : string;
  email : string;
  subject : string;
  description : string;
  category : option string;            (* nullable *)
  ai_summary : option pyval;           (* nullable *)
  processing_status : string;          (* default "pending" *)
  notification_sent : string;          (* default "false" *)
  created_at : Z;
  updated_at : Z;                      (* onupdate=datetime.utcnow *)
  processed_at : option Z              (* nullable *)
}.

Definition set_processing_status (s : string) (r : SupportRequest) : SupportRequest :=
  {| customer_name := customer_name r; email := email r; subject := subject r;
     description := description r; category := category r; ai_summary := ai_summary r;
     processing_status := s;
     notification_sent := notification_sent r; created_at := created_at r;
     updated_at := updated_at r; processed_at := processed_at r |}.

Definition set_category (c : option string) (r : SupportRequest) : SupportRequest :=
  {| customer_name := customer_name r; email := email r; subject := subject r;
     description := description r;
     category := c;
     ai_summary := ai_summary r; processing_status := processing_status r;
     notification_sent := notification_sent r; created_at := created_at r;
     updated_at := updated_at r; processed_at := processed_at r |}.

Definition set_ai_summary (v : option pyval) (r : SupportRequest) : SupportRequest :=
  {| customer_name := customer_name r; email := email r; subject := subject r;
     description := description r; category := category r;
     ai_summary := v;
     processing_status := processing_status r;
     notification_sent := notification_sent r; created_at := created_at r;
     updated_at := updated_at r; processed_at := processed_at r |}.

Definition set_processed_at (t : option Z) (r : SupportRequest) : SupportRequest :=
  {| customer_name := customer_name r; email := email r; subject := subject r;
     description := description r; category := category r; ai_summary := ai_summary r;
     processing_status := processing_status r;
     notification_sent := notification_sent r; created_at := created_at r;
     updated_at := updated_at r;
     processed_at := t |}.

Definition set_notification_sent (s : string) (r : SupportRequest) : SupportRequest :=
  {| customer_name := customer_name r; email := email r; subject := subject r;
     description := description r; category := category r; ai_summary := ai_summary r;
     processing_status := processing_status r;
     notification_sent := s;
     created_at := created_at r; updated_at := updated_at r;
     processed_at := processed_at r |}.

Definition set_updated_at (t : Z) (r : SupportRequest) : SupportRequest :=
  {| customer_name := customer_name r; email := email r; subject := subject r;
     description := description r; category := category r; ai_summary := ai_summary r;
     processing_status := processing_status r;
     notification_sent := notification_sent r; created_at := created_at r;
     updated_at := t;
     processed_at := processed_at r |}.

(** The row the web layer inserts ([app/main.py]): the two status columns
    are given, the nullable columns stay null. *)
Definition new_request (name mail subj descr : string) (now : Z) : SupportRequest :=
  {| customer_name := name; email := mail; subject := subj; description := descr;
     category := None; ai_summary := None;
     processing_status := "pending"; notification_sent := "false";
     created_at := now; updated_at := now; processed_at := None |}.

End Models.
Import Models.

(** ** The world the tasks act on *)

Module World.

(** The card [send_cancellation_alert] posts. *)
Record message_card : Type := {
  card_request_id : Z;
  card_customer : string;
  card_email : string;
  card_subject : string;
  card_category : string;
  card_created : Z;
  card_text : string
}.

(** What a task does to the outside, in the order it does it. *)
Inductive effect : Type :=
| Committed (request_id : Z) (row : SupportRequest)   (* db.commit() wrote the row *)
| Enqueued (request_id : Z)                           (* send_teams_notification.delay(id) *)
| Posted (card : message_card).                       (* client.post(webhook_url, ...) *)

Record world : Type := {
  store : gmap Z SupportRequest;
  effects : list effect
}.

Inductive commit_outcome : Type :=
| CommitOk (now : Z)                   (* the UPDATE went through at [now] *)
| CommitFails.

(** [db.commit()] with the session holding [obj] for row [request_id]:
    the row is written with [updated_at] stamped, or the commit raises
    and the store keeps what it had.  The refreshed object is returned. *)
Definition commit (o : commit_outcome) (request_id : Z) (obj : SupportRequest) (w : world)
    : exn + (SupportRequest * world) :=
  match o with
  | CommitOk now =>
      let row := set_updated_at now obj in
      inr (row, {| store := <[request_id := row]> (store w);
                   effects := effects w ++ [Committed request_id row] |})
  | CommitFails => inl OperationalError
  end.

Definition is_enqueue (e : effect) : bool :=
  match e with Enqueued _ => true | _ => false end.

Definition is_post (e : effect) : bool :=
  match e with Posted _ => true | _ => false end.

(** The notification tasks put on the queue, oldest first. *)
Definition enqueued (w : world) : list effect := List.filter is_enqueue (effects w).

(** The webhook calls made, oldest first. *)
Definition webhook_calls (w : world) : list effect := List.filter is_post (effects w).

End World.
Import World.

(** ** [app/services/teams_notifier.py] *)

Module TeamsNotifier.

Definition placeholder_url : string := "https://your-teams-webhook-url-here".

(** [not self.webhook_url or self.webhook_url == placeholder]. *)
Definition unconfigured (webhook_url : option string) : bool :=
  match webhook_url with
  | None => true
  | Some url => String.eqb url "" || String.eqb url placeholder_url
  end.

Definition build_card (request_id : Z) (r : SupportRequest) : message_card :=
  {| card_request_id := request_id;
     card_customer := customer_name r;
     card_email := email r;
     card_subject := subject r;
     card_category := match Models.category r with
                      | Some c => if String.eqb c "" then "Not classified" else c
                      | None => "Not classified"
                      end;
     card_created := created_at r;
     card_text := str_take 500 (description r) ++
                  (if (500 <? String.length (description r))%nat then "..." else "") |}.

(** [send_cancellation_alert]: the delivery id is the pair the code
    renders as "teams_notification_{id}_{timestamp}". *)
Definition send_cancellation_alert
    (webhook_url : option string) (webhook : http_result string) (now : Z)
    (request_id : Z) (r : SupportRequest) (w : world) : option (Z * Z) * world :=
  if unconfigured webhook_url then (None, w)
  else
    let w' := {| store := store w; effects := effects w ++ [Posted (build_card request_id r)] |} in
    match webhook with
    | Responds code _ => if code =? 200 then (Some (request_id, now), w') else (None, w')
    | Raises _ => (None, w')               (* except Exception: return None *)
    end.

(** [send_notification]: the bool wrapper around the alert. *)
Definition send_notification
    (webhook_url : option string) (webhook : http_result string) (now : Z)
    (request_id : Z) (r : SupportRequest) (w : world) : bool * world :=
  let '(result, w') := send_cancellation_alert webhook_url webhook now request_id r w in
  (match result with Some _ => true | None => false end, w').

End TeamsNotifier.

(** ** [app/tasks.py] *)

Module Tasks.

(** The options of [@celery_app.task(...)] and the queue of [task_routes]. *)
Record task_options : Type := {
  autoretry_for : list exn_class;
  max_retries : nat;
  countdown : Z;
  queue : string
}.

Definition process_support_request_options : task_options :=
  {| autoretry_for := [ClsException]; max_retries := 3; countdown := 60;
     queue := "support_processing" |}.

Definition send_teams_notification_options : task_options :=
  {| autoretry_for := [ClsException]; max_retries := 3; countdown := 30;
     queue := "notifications" |}.

(** How the queue files one delivery of a task. *)
Inductive task_state (A : Type) : Type :=
| Success (v : A)
| Retry (e : exn) (countdown : Z)      (* re-delivered after [countdown] seconds *)
| Failure (e : exn).                   (* terminal: no further delivery *)
Arguments Success {A} v.
Arguments Retry {A} e countdown.
Arguments Failure {A} e.

(** Celery's autoretry wrapper around a task body: an exception of a class
    in [autoretry_for] schedules a retry while the delivery's retry count
    is below [max_retries], and fails the task with that exception
    otherwise. *)
Definition deliver {A : Type} (opts : task_options) (retries : nat) (r : exn + A)
    : task_state A :=
  match r with
  | inr v => Success v
  | inl e =>
      if existsb (isinstance e) (autoretry_for opts)
      then if (retries <? max_retries opts)%nat then Retry e (countdown opts) else Failure e
      else Failure e
  end.

(** The dict [process_support_request] returns. *)
Record processing_result : Type := {
  result_request_id : Z;
  result_category : string;
  result_summary : pyval
}.

(** The dict [send_teams_notification] returns. *)
Record notification_result : Type := {
  notified_request_id : Z;
  notification_id : option (Z * Z)
}.

(** What the outside world does during one run of [process_support_request]. *)
Record processing_env : Type := {
  query_fails : bool;                      (* db.query(...).first() raises *)
  commit_processing : commit_outcome;      (* the commit of status "processing" *)
  classifier_config : Classifier.config;
  ollama : Classifier.service;
  processed_now : Z;                       (* datetime.utcnow() for processed_at *)
  commit_completed : commit_outcome;       (* the commit of the results *)
  delay_fails : bool;                      (* send_teams_notification.delay raises *)
  commit_failed : commit_outcome           (* the commit of status "failed" *)
}.

(** What the outside world does during one run of [send_teams_notification]. *)
Record notification_env : Type := {
  notify_query_fails : bool;
  webhook_url : option string;             (* os.getenv('TEAMS_WEBHOOK_URL') *)
  webhook : http_result string;            (* the webhook's answer to the POST *)
  sent_now : Z;                            (* datetime.utcnow() in the delivery id *)
  commit_sent : commit_outcome
}.

(** The local variable [request] when the [except] clause runs. *)
Inductive local_request : Type :=
| Unbound                                 (* 'request' not in locals() *)
| Bound (obj : option SupportRequest).    (* None when first() found no row *)

(** The four assignments that write the classification onto the object. *)
Definition store_ai_result (ai : Classifier.classification) (now : Z) (r : SupportRequest)
    : SupportRequest :=
  set_processing_status "completed"
    (set_processed_at (Some now)
      (set_ai_summary (Some (Classifier.summary ai))
        (set_category (Some (Classifier.category ai)) r))).

Section Libraries.

Variable json_loads : string -> option pyval.
Variable re_findall : string -> list string.

(** The [try] block of [process_support_request]: its result, the
    binding of [request] at that point, and the world it leaves. *)
Definition process_try (env : processing_env) (request_id : Z) (w : world)
    : (exn + option processing_result) * local_request * world :=
  if query_fails env then (inl OperationalError, Unbound, w)
  else
    match store w !! request_id with
    | None => (inl (ValueError request_id), Bound None, w)
    | Some request =>
        if String.eqb (processing_status request) "completed"
        then (inr None, Bound (Some request), w)
        else
          let request := set_processing_status "processing" request in
          match commit (commit_processing env) request_id request w with
          | inl e => (inl e, Bound (Some request), w)
          | inr (request, w1) =>
              match Classifier.classify_request json_loads re_findall
                      (classifier_config env) (ollama env)
                      (subject request) (description request) with
              | inl e => (inl e, Bound (Some request), w1)
              | inr ai_result =>
                  let request := store_ai_result ai_result (processed_now env) request in
                  match commit (commit_completed env) request_id request w1 with
                  | inl e => (inl e, Bound (Some request), w1)
                  | inr (request, w2) =>
                      let returned :=
                        {| result_request_id := request_id;
                           result_category := Classifier.category ai_result;
                           result_summary := Classifier.summary ai_result |} in
                      if String.eqb (Classifier.category ai_result) "cancellation_request"
                      then
                        if delay_fails env
                        then (inl OperationalError, Bound (Some request), w2)
                        else (inr (Some returned), Bound (Some request),
                              {| store := store w2;
                                 effects := effects w2 ++ [Enqueued request_id] |})
                      else (inr (Some returned), Bound (Some request), w2)
                  end
              end
          end
    end.

(** [process_support_request]: the [try] block, then the [except
    Exception] clause, which marks the object failed, commits and
    re-raises.  With [request] bound to None the assignment in the clause
    raises [AttributeError] itself. *)
Definition process_support_request (env : processing_env) (request_id : Z) (w : world)
    : (exn + option processing_result) * world :=
  match process_try env request_id w with
  | (inr v, _, w') => (inr v, w')
  | (inl e, Unbound, w') => (inl e, w')
  | (inl e, Bound None, w') => (inl AttributeError, w')
  | (inl e, Bound (Some request), w') =>
      let request := set_processing_status "failed" request in
      match commit (commit_failed env) request_id request w' with
      | inl e' => (inl e', w')
      | inr (_, w'') => (inl e, w'')
      end
  end.

(** One delivery of the processing task by the queue. *)
Definition deliver_processing (retries : nat) (env : processing_env) (request_id : Z)
    (w : world) : task_state (option processing_result) * world :=
  let '(r, w') := process_support_request env request_id w in
  (deliver process_support_request_options retries r, w').

End Libraries.

(** [send_teams_notification]; its [except] clause only re-raises. *)
Definition send_teams_notification (env : notification_env) (request_id : Z) (w : world)
    : (exn + option notification_result) * world :=
  if notify_query_fails env then (inl OperationalError, w)
  else
    match store w !! request_id with
    | None => (inl (ValueError request_id), w)
    | Some request =>
        if String.eqb (notification_sent request) "true"
        then (inr None, w)
        else
          let '(notification_id, w1) :=
            TeamsNotifier.send_cancellation_alert
              (webhook_url env) (webhook env) (sent_now env) request_id request w in
          let request := set_notification_sent "true" request in
          match commit (commit_sent env) request_id request w1 with
          | inl e => (inl e, w1)
          | inr (_, w2) =>
              (inr (Some {| notified_request_id := request_id;
                            notification_id := notification_id |}), w2)
          end
    end.

(** Successive deliveries of the notification task for one request id. *)
Fixpoint notify_repeatedly (envs : list notification_env) (request_id : Z) (w : world)
    : world :=
  match envs with
  | [] => w
  | env :: rest => notify_repeatedly rest request_id (snd (send_teams_notification env request_id w))
  end.

End Tasks.

(** ** Concrete requests, environments and worlds *)

Module Examples.

Import Tasks.

(** A decoder that accepts no text and a regex that finds no match: enough
    for the runs below, which never hear back from the model. *)
Definition no_json (text : string) : option pyval := None.
Definition no_matches (text : string) : list string := [].

(** The remote service is down: both calls fail at the transport. *)
Definition ollama_down : Classifier.service :=
  {| Classifier.health := Raises TransportError;
     Classifier.generate := Raises TransportError;
     Classifier.utcnow := 0 |}.

Fixpoint repeat_char (n : nat) (c : ascii) : string :=
  match n with
  | O => EmptyString
  | S k => String c (repeat_char k c)
  end.

(** A parsed model answer with an unknown category, a 600-character
    summary and a confidence of 1.5. *)
Definition out_of_range_answer : pyval :=
  PyDict [ ("category", PyStr "not_a_real_category");
           ("summary", PyStr (repeat_char 600 "x"));
           ("confidence", PyFloat (FFinite 1.5)) ].

(** Two parsed model answers that differ in their confidence only. *)
Definition billing_answer (conf : Q) : pyval :=
  PyDict [ ("category", PyStr "billing");
           ("summary", PyStr "dup charge");
           ("confidence", PyFloat (FFinite conf)) ].

Definition cancel_row : SupportRequest :=
  new_request "John Smith" "john@example.com" "Cancel my subscription" "stop billing me" 1000.

Definition completed_row : SupportRequest :=
  set_updated_at 1020
    (Tasks.store_ai_result (Classifier.fallback_classify "Cancel my subscription" "stop billing me")
       1015 (set_updated_at 1010 (set_processing_status "processing" cancel_row))).

Definition notified_row : SupportRequest := set_notification_sent "true" completed_row.

Definition empty_world : world := {| store := ∅; effects := [] |}.

Definition world_with (request_id : Z) (r : SupportRequest) : world :=
  {| store := {[ request_id := r ]}; effects := [] |}.

(** A run in which the store and the broker work and the model is down. *)
Definition quiet_run (t_processing t_processed t_completed t_failed : Z) : processing_env :=
  {| query_fails := false;
     commit_processing := CommitOk t_processing;
     classifier_config := Classifier.default_config;
     ollama := ollama_down;
     processed_now := t_processed;
     commit_completed := CommitOk t_completed;
     delay_fails := false;
     commit_failed := CommitOk t_failed |}.

(** The same run with the broker refusing the enqueue. *)
Definition broker_down_run (t_processing t_processed t_completed t_failed : Z) : processing_env :=
  {| query_fails := false;
     commit_processing := CommitOk t_processing;
     classifier_config := Classifier.default_config;
     ollama := ollama_down;
     processed_now := t_processed;
     commit_completed := CommitOk t_completed;
     delay_fails := true;
     commit_failed := CommitOk t_failed |}.

(** A notification run whose webhook answers with the given status. *)
Definition webhook_answers (code : Z) (t_sent t_commit : Z) : notification_env :=
  {| notify_query_fails := false;
     webhook_url := Some "https://teams.example/webhook";
     webhook := Responds code "";
     sent_now := t_sent;
     commit_sent := CommitOk t_commit |}.

(** A notification run with no webhook configured. *)
Definition webhook_unset (t_sent t_commit : Z) : notification_env :=
  {| notify_query_fails := false;
     webhook_url := None;
     webhook := Raises TransportError;
     sent_now := t_sent;
     commit_sent := CommitOk t_commit |}.

End Examples.

(** ** [app/database.py] *)

Module Database.

Definition max_retries : nat := 5.

(** The [for attempt in range(max_retries)] loop of [create_tables].
    [connect attempt] is what the attempt's [SELECT 1] and [create_all]
    do: [None] when they go through, the exception otherwise.  The second
    component lists the [time.sleep] calls, oldest first. *)
Fixpoint create_tables_loop (attempts : list nat) (retry_delay : Z)
    (connect : nat -> option exn) (slept : list Z) : (exn + unit) * list Z :=
  match attempts with
  | [] => (inr tt, slept)
  | attempt :: rest =>
      match connect attempt with
      | None => (inr tt, slept)
      | Some e =>
          if (attempt <? max_retries - 1)%nat
          then create_tables_loop rest (retry_delay * 2) connect (slept ++ [retry_delay])
          else (inl e, slept)
      end
  end.

Definition create_tables (connect : nat -> option exn) : (exn + unit) * list Z :=
  create_tables_loop (seq 0 max_retries) 2 connect [].

End Database.

(** ** [app/main.py] *)

Module Main.

(** The pydantic model [SupportRequestCreate] (also the four form fields). *)
Record SupportRequestCreate : Type := {
  new_customer_name : string;
  new_email : string;
  new_subject : string;
  new_description : string
}.

(** What an endpoint answers: a body, or an [HTTPException]. *)
Inductive http_response (A : Type) : Type :=
| Answer (body : A)
| HTTPException (status_code : Z) (detail : string).
Arguments Answer {A} body.
Arguments HTTPException {A} status_code detail.

(** The store and the processing queue as the web layer sees them;
    [processing_queue] lists the ids given to
    [process_support_request.delay], oldest first. *)
Record web_world : Type := {
  rows : gmap Z SupportRequest;
  processing_queue : list Z
}.

(** What the outside does during one creation: the INSERT's commit gives
    the new row its id and its two timestamp defaults, or raises; the
    refresh and the enqueue can raise too. *)
Record create_env : Type := {
  insert : option (Z * Z * Z);       (* assigned id, created_at, updated_at *)
  refresh_fails : bool;
  enqueue_fails : bool
}.

(** The [try] block the two creating endpoints share: build the row, add,
    commit, refresh, enqueue the processing task. *)
Definition create_and_enqueue (env : create_env) (data : SupportRequestCreate) (w : web_world)
    : (exn + (Z * SupportRequest)) * web_world :=
  match insert env with
  | None => (inl OperationalError, w)
  | Some (new_id, t_created, t_updated) =>
      let support_request :=
        {| customer_name := new_customer_name data;
           email := new_email data;
           subject := new_subject data;
           description := new_description data;
           category := None;
           ai_summary := None;
           processing_status := "pending";
           notification_sent := "false";
           created_at := t_created;
           updated_at := t_updated;
           processed_at := None |} in
      let w1 := {| rows := <[new_id := support_request]> (rows w);
                   processing_queue := processing_queue w |} in
      if refresh_fails env then (inl OperationalError, w1)
      else if enqueue_fails env then (inl OperationalError, w1)
      else (inr (new_id, support_request),
            {| rows := rows w1; processing_queue := processing_queue w1 ++ [new_id] |})
  end.

(** [POST /api/support-requests]. *)
Definition create_support_request (env : create_env) (data : SupportRequestCreate)
    (w : web_world) : http_response (Z * SupportRequest) * web_world :=
  match create_and_enqueue env data w with
  | (inr created, w') => (Answer created, w')
  | (inl _, w') => (HTTPException 500 "Failed to create support request", w')
  end.

(** The two templates [POST /submit] renders. *)
Inductive form_page : Type :=
| SuccessPage (request_id : Z)
| ErrorPage (error : string).

(** [POST /submit]. *)
Definition submit_support_request_form (env : create_env) (data : SupportRequestCreate)
    (w : web_world) : form_page * web_world :=
  match create_and_enqueue env data w with
  | (inr (request_id, _), w') => (SuccessPage request_id, w')
  | (inl _, w') => (ErrorPage "Failed to submit support request. Please try again.", w')
  end.

(** [GET /api/support-requests/{request_id}]. *)
Definition get_support_request (request_id : Z) (w : web_world)
    : http_response SupportRequest :=
  match rows w !! request_id with
  | Some support_request => Answer support_request
  | None => HTTPException 404 "Support request not found"
  end.

(** The answers of [POST /api/classify]: the result under status
    "success", or a 500 carrying the error. *)
Inductive classify_answer : Type :=
| ClassifySuccess (classification : Classifier.classification) (timestamp : Z)
| ClassifyError (status_code : Z) (error : exn) (timestamp : Z).

(** [POST /api/classify]. *)
Definition test_ai_classification
    (json_loads : string -> option pyval) (re_findall : string -> list string)
    (cfg : Classifier.config) (svc : Classifier.service) (now : Z)
    (subject description : string) : classify_answer :=
  match Classifier.classify_request json_loads re_findall cfg svc subject description with
  | inr result => ClassifySuccess result now
  | inl e => ClassifyError 500 e now
  end.

End Main.

(** ** More concrete values *)

Module Scenarios.

Import Tasks Examples.

(** The model service is up and answers 200 with the given body. *)
Definition ollama_answers (body : option pyval) : Classifier.service :=
  {| Classifier.health := Responds 200 tt;
     Classifier.generate := Responds 200 body;
     Classifier.utcnow := 1014 |}.

Definition john : Main.SupportRequestCreate :=
  {| Main.new_customer_name := "John Smith";
     Main.new_email := "john@example.com";
     Main.new_subject := "Cancel my subscription";
     Main.new_description := "stop billing me" |}.

Definition empty_web : Main.web_world :=
  {| Main.rows := ∅; Main.processing_queue := [] |}.

Definition creation (new_id : Z) : Main.create_env :=
  {| Main.insert := Some (new_id, 1000, 1000);
     Main.refresh_fails := false;
     Main.enqueue_fails := false |}.

(** The database refuses the first two attempts and takes the third. *)
Definition third_time_lucky (attempt : nat) : option exn :=
  if (attempt <? 2)%nat then Some OperationalError else None.

Definition never_up (attempt : nat) : option exn := Some OperationalError.

End Scenarios.

(** * Properties *)

(** ** Strings *)

Module StringFacts.

Lemma length_append (s t : string) :
  String.length (s ++ t) = (String.length s + String.length t)%nat.
Proof.
  induction s as [|c s IH]; simpl; [reflexivity | now rewrite IH].
Qed.

Lemma length_str_take (n : nat) (s : string) :
  String.length (str_take n s) = Nat.min n (String.length s).
Proof.
  unfold str_take. revert n.
  induction s as [|c s IH]; intros [|n]; simpl; try reflexivity.
  now rewrite IH.
Qed.

Lemma str_take_prefix (n : nat) (s : string) : String.prefix (str_take n s) s = true.
Proof.
  unfold str_take. revert n.
  induction s as [|c s IH]; intros [|n]; simpl; try reflexivity.
  destruct (ascii_dec c c) as [_|Hne]; [apply IH | now contradiction Hne].
Qed.

End StringFacts.

(** ** The classifier *)

Module ClassifierProps.

Import Classifier Examples StringFacts.

Lemma isinstance_Exception (e : exn) : isinstance e ClsException = true.
Proof. reflexivity. Qed.

(** Both [except] clauses end in the fallback, so the [try] block's result
    decides the answer and nothing escapes. *)
Lemma classify_request_unfold json_loads re_findall cfg svc subject description :
  classify_request json_loads re_findall cfg svc subject description =
  inr (if check_ollama_health svc
       then match remote_classify json_loads re_findall cfg svc subject description with
            | inr result => result
            | inl _ => fallback_classify subject description
            end
       else fallback_classify subject description).
Proof.
  unfold classify_request.
  destruct (check_ollama_health svc); cbn [negb]; [|reflexivity].
  destruct (remote_classify _ _ _ _ _ _) as [e|result]; [|reflexivity].
  destruct (isinstance e ClsTimeoutError); [reflexivity|].
  now rewrite isinstance_Exception.
Qed.

(** The call always yields a result. *)
Lemma classify_request_returns
    (json_loads : string -> option pyval) (re_findall : string -> list string)
    (cfg : config) (svc : service) (subject description : string) :
  exists result, classify_request json_loads re_findall cfg svc subject description = inr result.
Proof. rewrite classify_request_unfold. eexists. reflexivity. Qed.

Lemma find_first_match {A : Type} (p : A -> bool) (l : list A) (x : A) :
  List.find p l = Some x ->
  exists before after,
    l = (before ++ x :: after)%list /\ p x = true /\ Forall (fun y => p y = false) before.
Proof.
  induction l as [|y l IH]; simpl; [discriminate|].
  destruct (p y) eqn:Hy.
  - intros [= ->]. exists [], l. repeat split; [assumption | constructor].
  - intros Hfind. destruct (IH Hfind) as (before & after & -> & Hx & Hbefore).
    exists (y :: before), after. repeat split; [assumption | now constructor].
Qed.

(** The keyword scan answers with the first table entry whose keyword
    occurs in the text: no entry before it does. *)
Lemma first_keyword_first_match (text keyword cat : string) :
  first_keyword text = Some (keyword, cat) ->
  exists before after,
    fallback_categories = (before ++ (keyword, cat) :: after)%list /\
    str_in keyword text = true /\
    Forall (fun entry => str_in (fst entry) text = false) before.
Proof.
  intros H. apply find_first_match in H. exact H.
Qed.

(** No regex match decodes: the loop falls through. *)
Lemma no_match_decodes (json_loads : string -> option pyval) (matches : list string) :
  Forall (fun m => json_loads m = None) matches ->
  first_decoded json_loads matches = None.
Proof.
  induction 1 as [|m matches Hm _ IH]; simpl; [reflexivity | now rewrite Hm].
Qed.

(** C6 (amended): whatever the remote service does, [classify_request]
    does not raise and returns a result.  A health probe that is
    unreachable or not 200, a transport error or timeout on the generate
    call, a status other than 200, a body that is not JSON or not a JSON
    object, and a response field that is not text all end in the
    fallback classification.  A 200 answer with a JSON object whose
    response text is missing or cannot be parsed does not: it ends in the
    parse default (general_inquiry, confidence 0.3) as validated, under
    method "ollama_ai". *)
Theorem classify_request_never_raises
    (json_loads : string -> option pyval) (re_findall : string -> list string)
    (cfg : config) (svc : service) (subject description : string) :
  exists result,
    classify_request json_loads re_findall cfg svc subject description = inr result /\
    (forall e, health svc = Raises e -> result = fallback_classify subject description) /\
    (forall code body, health svc = Responds code body -> code <> 200 ->
       result = fallback_classify subject description) /\
    (forall e, generate svc = Raises e -> result = fallback_classify subject description) /\
    (forall code body, generate svc = Responds code body -> code <> 200 ->
       result = fallback_classify subject description) /\
    (forall code, generate svc = Responds code None ->
       result = fallback_classify subject description) /\
    (forall code v, generate svc = Responds code (Some v) -> (forall d, v <> PyDict d) ->
       result = fallback_classify subject description) /\
    (forall code d, generate svc = Responds code (Some (PyDict d)) ->
       (forall text, dict_get d "response" (PyStr "") <> PyStr text) ->
       result = fallback_classify subject description) /\
    (forall probe d text,
       health svc = Responds 200 probe ->
       generate svc = Responds 200 (Some (PyDict d)) ->
       dict_get d "response" (PyStr "") = PyStr text ->
       json_loads (strip text) = None ->
       Forall (fun m => json_loads m = None) (re_findall text) ->
       result = {| category := "general_inquiry";
                   summary := PyStr "AI parsing failed - manual review needed";
                   confidence := PyFloat (FFinite 0.3);
                   method := "ollama_ai";
                   model := Some (ollama_model cfg);
                   timestamp := Some (utcnow svc) |}).
Proof.
  rewrite classify_request_unfold. eexists. split; [reflexivity|].
  unfold check_ollama_health, remote_classify.
  split; [intros e ->; reflexivity|].
  split; [intros code body -> Hcode; apply Z.eqb_neq in Hcode; now rewrite Hcode|].
  split.
  { intros e ->.
    now destruct (match health svc with Responds c _ => c =? 200 | Raises _ => false end). }
  split.
  { intros code body -> Hcode. apply Z.eqb_neq in Hcode. rewrite Hcode. simpl.
    now destruct (match health svc with Responds c _ => c =? 200 | Raises _ => false end). }
  split.
  { intros code ->.
    destruct (match health svc with Responds c _ => c =? 200 | Raises _ => false end);
      [|reflexivity].
    now destruct (code =? 200). }
  split.
  { intros code v -> Hv.
    destruct (match health svc with Responds c _ => c =? 200 | Raises _ => false end);
      [|reflexivity].
    destruct (code =? 200); simpl; [|reflexivity].
    destruct v; simpl; try reflexivity. now contradiction (Hv d). }
  split.
  { intros code d -> Hresponse.
    destruct (match health svc with Responds c _ => c =? 200 | Raises _ => false end);
      [|reflexivity].
    destruct (code =? 200); cbn [negb bind py_get]; [|reflexivity].
    destruct (dict_get d "response" (PyStr "")) as [| | | |text| |];
      try reflexivity.
    now contradiction (Hresponse text). }
  intros probe d text -> -> Hresponse Hwhole Hmatches.
  cbn [Z.eqb Pos.eqb negb bind py_get]. rewrite Hresponse.
  unfold parse_ai_response. rewrite Hwhole, (no_match_decodes json_loads _ Hmatches).
  reflexivity.
Qed.

(** C6 as stated fails on a malformed body: the service answers 200 with
    the empty JSON object, so there is no response text to parse, and the
    answer is the parse default under "ollama_ai", not the keyword
    fallback, which would have said cancellation_request. *)
Lemma unparsable_body_is_not_fallback :
  exists r,
    classify_request no_json no_matches default_config
      (Scenarios.ollama_answers (Some (PyDict []))) "Cancel my subscription" "stop billing me"
      = inr r /\
    method r = "ollama_ai" /\
    category r = "general_inquiry" /\
    category (fallback_classify "Cancel my subscription" "stop billing me")
      = "cancellation_request" /\
    r <> fallback_classify "Cancel my subscription" "stop billing me".
Proof.
  eexists. split; [reflexivity|].
  split; [reflexivity|]. split; [reflexivity|]. split; [reflexivity|].
  discriminate.
Qed.

(** C7: with the remote service unreachable, the request "Cancel my
    subscription" / "stop billing me" is classified cancellation_request
    by the fallback with confidence 0.6; "cancel" is the first table entry
    and wins although "stop" and the billing keyword "billing" occur in
    the text too. *)
Theorem fallback_cancel_subscription
    (json_loads : string -> option pyval) (re_findall : string -> list string)
    (cfg : config) (svc : service) :
  check_ollama_health svc = false ->
  exists result,
    classify_request json_loads re_findall cfg svc
      "Cancel my subscription" "stop billing me" = inr result /\
    category result = "cancellation_request" /\
    method result = "fallback" /\
    confidence result = PyFloat (FFinite 0.6) /\
    first_keyword (fallback_text "Cancel my subscription" "stop billing me")
      = Some ("cancel", "cancellation_request") /\
    List.hd_error fallback_categories = Some ("cancel", "cancellation_request") /\
    str_in "stop" (fallback_text "Cancel my subscription" "stop billing me") = true /\
    str_in "billing" (fallback_text "Cancel my subscription" "stop billing me") = true /\
    In ("billing", "billing") fallback_categories.
Proof.
  intros Hdown. rewrite classify_request_unfold, Hdown.
  eexists. split; [reflexivity|].
  repeat split; try reflexivity.
  unfold fallback_categories. simpl. tauto.
Qed.

Lemma fallback_cancel_subscription_witness :
  check_ollama_health ollama_down = false /\
  exists result,
    classify_request no_json no_matches default_config ollama_down
      "Cancel my subscription" "stop billing me" = inr result /\
    category result = "cancellation_request" /\
    method result = "fallback" /\
    confidence result = PyFloat (FFinite 0.6) /\
    first_keyword (fallback_text "Cancel my subscription" "stop billing me")
      = Some ("cancel", "cancellation_request") /\
    List.hd_error fallback_categories = Some ("cancel", "cancellation_request") /\
    str_in "stop" (fallback_text "Cancel my subscription" "stop billing me") = true /\
    str_in "billing" (fallback_text "Cancel my subscription" "stop billing me") = true /\
    In ("billing", "billing") fallback_categories.
Proof.
  split; [reflexivity|].
  apply (fallback_cancel_subscription no_json no_matches default_config ollama_down).
  reflexivity.
Defined.

End ClassifierProps.

(** ** Validation of a parsed answer *)

Module ValidationProps.

Import Classifier Examples StringFacts.

Lemma float_lt_finite (q : Q) (n : Z) :
  float_lt (FFinite q) (inject_Z n) = true <-> (q < inject_Z n)%Q.
Proof.
  simpl. rewrite negb_true_iff, <- not_true_iff_false, Qle_bool_iff.
  split; [apply Qnot_le_lt | apply Qlt_not_le].
Qed.

Lemma float_gt_finite (q : Q) (n : Z) :
  float_gt (FFinite q) (inject_Z n) = true <-> (inject_Z n < q)%Q.
Proof.
  simpl. rewrite negb_true_iff, <- not_true_iff_false, Qle_bool_iff.
  split; [apply Qnot_le_lt | apply Qlt_not_le].
Qed.

(** A summary that is text never makes the validation raise. *)
Lemma validate_returns_on_text
    (cfg : config) (now : Z) (d : list (string * pyval)) (subject description text : string) :
  dict_get d "summary" (PyStr "No summary provided") = PyStr text ->
  exists r, validate_classification_result cfg now (PyDict d) subject description = inr r.
Proof.
  intros Hsum. unfold validate_classification_result. simpl. rewrite Hsum. simpl.
  destruct (500 <? String.length text)%nat; simpl; eexists; reflexivity.
Qed.

(** C8 (amended): for a parsed dict whose summary is text (or absent),
    the validation returns a result in which a category outside the valid
    set has become general_inquiry, a summary longer than 500 characters
    has become its first 497 characters followed by "..." (500 in all), a
    confidence that is not a number, or is a number outside [0,1] (the
    infinities included), has become 0.7, and which carries method
    "ollama_ai", the model identifier and the timestamp. *)
Theorem validate_classification_result_clamps
    (cfg : config) (now : Z) (d : list (string * pyval)) (subject description text : string) :
  dict_get d "summary" (PyStr "No summary provided") = PyStr text ->
  let cat := dict_get d "category" (PyStr "general_inquiry") in
  let conf := dict_get d "confidence" (PyFloat (FFinite 0.7)) in
  exists r,
    validate_classification_result cfg now (PyDict d) subject description = inr r /\
    (in_valid_categories cat = false -> category r = "general_inquiry") /\
    (forall c, cat = PyStr c -> In c valid_categories -> category r = c) /\
    In (category r) valid_categories /\
    ((500 < String.length text)%nat ->
       summary r = PyStr (str_take 497 text ++ "...") /\
       String.length (str_take 497 text) = 497%nat /\
       String.prefix (str_take 497 text) text = true /\
       String.length (str_take 497 text ++ "...") = 500%nat) /\
    ((String.length text <= 500)%nat -> summary r = PyStr text) /\
    (is_int_or_float conf = false -> confidence r = PyFloat (FFinite 0.7)) /\
    (forall q, conf = PyFloat (FFinite q) -> (q < 0 \/ 1 < q)%Q ->
       confidence r = PyFloat (FFinite 0.7)) /\
    (forall q, conf = PyFloat (FFinite q) -> (0 <= q /\ q <= 1)%Q -> confidence r = conf) /\
    (conf = PyFloat FPosInf \/ conf = PyFloat FNegInf ->
       confidence r = PyFloat (FFinite 0.7)) /\
    (forall z, conf = PyInt z -> z < 0 \/ 1 < z -> confidence r = PyFloat (FFinite 0.7)) /\
    (forall z, conf = PyInt z -> 0 <= z <= 1 -> confidence r = conf) /\
    method r = "ollama_ai" /\
    model r = Some (ollama_model cfg) /\
    timestamp r = Some now.
Proof.
  intros Hsum cat conf.
  unfold validate_classification_result. cbn [py_get bind]. rewrite Hsum.
  fold cat conf. cbn [py_len bind].
  assert (Hsummary :
    exists sum', (if (500 <? String.length text)%nat
                  then truncate_summary (PyStr text) else inr (PyStr text)) = inr sum' /\
      ((500 < String.length text)%nat -> sum' = PyStr (str_take 497 text ++ "...")) /\
      ((String.length text <= 500)%nat -> sum' = PyStr text)).
  { destruct (500 <? String.length text)%nat eqn:Hlong.
    - apply Nat.ltb_lt in Hlong. eexists. split; [reflexivity|].
      split; [reflexivity | lia].
    - apply Nat.ltb_ge in Hlong. eexists. split; [reflexivity|].
      split; [lia | reflexivity]. }
  destruct Hsummary as (sum' & -> & Hlong & Hshort). cbn [bind].
  eexists. split; [reflexivity|]. cbn [category summary confidence method model timestamp].
  assert (Hout : num_lt conf 0 = true \/ num_gt conf 1 = true ->
            (if negb (is_int_or_float conf) || num_lt conf 0 || num_gt conf 1
             then PyFloat (FFinite 0.7) else conf) = PyFloat (FFinite 0.7)).
  { intros [H|H]; rewrite H.
    - now destruct (negb (is_int_or_float conf)).
    - now destruct (negb (is_int_or_float conf) || num_lt conf 0). }
  split; [intros Hcat; now rewrite Hcat|].
  split.
  { intros c Hc Hin. rewrite Hc. cbn [in_valid_categories category_text].
    unfold valid_categories in Hin. cbn [In] in Hin.
    repeat (destruct Hin as [<-|Hin]; [reflexivity|]). contradiction. }
  split.
  { destruct (in_valid_categories cat) eqn:Hcat; cbn [negb]; [|cbn; tauto].
    destruct cat as [| | | |c| |]; try (cbn in Hcat; discriminate).
    unfold in_valid_categories in Hcat. cbn [category_text].
    apply existsb_exists in Hcat. destruct Hcat as (c' & Hin & Heq).
    apply String.eqb_eq in Heq. now subst c'. }
  split.
  { intros H. split; [exact (Hlong H)|].
    split; [rewrite length_str_take; lia|].
    split; [apply str_take_prefix|].
    rewrite length_append, length_str_take. change (String.length "...") with 3%nat. lia. }
  split; [exact Hshort|].
  split; [intros H; now rewrite H|].
  split.
  { intros q Hq [Hlt|Hgt]; apply Hout; rewrite Hq.
    - left. now apply (float_lt_finite q 0).
    - right. now apply (float_gt_finite q 1). }
  split.
  { intros q Hq [Hlo Hhi]. rewrite Hq. cbn [is_int_or_float negb orb num_lt num_gt
                                          float_lt float_gt].
    apply Qle_bool_iff in Hlo, Hhi.
    change (inject_Z 0) with 0%Q. change (inject_Z 1) with 1%Q.
    now rewrite Hlo, Hhi. }
  split; [intros [H|H]; apply Hout; rewrite H; [right | left]; reflexivity|].
  split.
  { intros z Hz [Hlt|Hgt]; apply Hout; rewrite Hz; cbn [num_lt num_gt].
    - left. now apply Z.ltb_lt.
    - right. now apply Z.ltb_lt. }
  split.
  { intros z Hz [Hlo Hhi]. rewrite Hz. cbn [is_int_or_float negb orb num_lt num_gt].
    assert (Hlt : (z <? 0) = false) by (apply Z.ltb_ge; lia).
    assert (Hgt : (1 <? z) = false) by (apply Z.ltb_ge; lia).
    now rewrite Hlt, Hgt. }
  repeat split.
Qed.

(** The clamps at work on an unknown category, a 600-character summary
    and a confidence of 1.5. *)
Lemma validate_classification_result_clamps_witness :
  exists r,
    validate_classification_result default_config 1000 out_of_range_answer "s" "d" = inr r /\
    category r = "general_inquiry" /\
    summary r = PyStr (repeat_char 497 "x" ++ "...") /\
    confidence r = PyFloat (FFinite 0.7) /\
    method r = "ollama_ai" /\
    model r = Some "llama3.1:8b" /\
    timestamp r = Some 1000.
Proof.
  destruct (validate_classification_result_clamps default_config 1000
              [ ("category", PyStr "not_a_real_category");
                ("summary", PyStr (repeat_char 600 "x"));
                ("confidence", PyFloat (FFinite 1.5)) ] "s" "d" (repeat_char 600 "x") eq_refl)
    as (r & Hr & Hcat & _ & _ & Hlong & _ & _ & Hconf & _ & _ & _ & _ & Hm & Hmod & Hts).
  exists r. split; [exact Hr|].
  split; [apply Hcat; reflexivity|].
  split; [destruct Hlong as [Hs _]; [vm_compute; lia | exact Hs]|].
  split; [apply (Hconf 1.5%Q eq_refl); right; reflexivity|].
  split; [exact Hm|]. split; [exact Hmod | exact Hts].
Defined.

(** Left out of C8: a summary without length (JSON null, a number, a
    bool) makes the validation raise instead of returning a result. *)
Lemma validate_raises_on_summary_without_length
    (cfg : config) (now : Z) (d : list (string * pyval)) (subject description : string) :
  py_len (dict_get d "summary" (PyStr "No summary provided")) = inl TypeError ->
  validate_classification_result cfg now (PyDict d) subject description = inl TypeError.
Proof.
  intros Hlen. unfold validate_classification_result. cbn [py_get bind]. now rewrite Hlen.
Qed.

(** Left out of C8: a NaN confidence compares neither below 0 nor above
    1 and is kept; so is a bool, which is an int to [isinstance]. *)
Lemma validate_keeps_nan_and_bool
    (cfg : config) (now : Z) (d : list (string * pyval)) (subject description : string)
    (r : classification) :
  validate_classification_result cfg now (PyDict d) subject description = inr r ->
  (dict_get d "confidence" (PyFloat (FFinite 0.7)) = PyFloat FNan ->
     confidence r = PyFloat FNan) /\
  (forall b, dict_get d "confidence" (PyFloat (FFinite 0.7)) = PyBool b ->
     confidence r = PyBool b).
Proof.
  unfold validate_classification_result. cbn [py_get bind].
  destruct (py_len _); cbn [bind]; [discriminate|].
  destruct (if (500 <? _)%nat then _ else _); cbn [bind]; [discriminate|].
  intros [= <-]. cbn [confidence].
  split; [intros ->; reflexivity | intros b ->; now destruct b].
Qed.

(** C8 as stated fails on the method tag: the validated result is tagged
    "ollama_ai", not "remote_ai". *)
Lemma validate_method_is_not_remote_ai :
  exists r,
    validate_classification_result default_config 1000 (billing_answer 0.9) "s" "d" = inr r /\
    method r <> "remote_ai".
Proof.
  eexists. split; [reflexivity|]. simpl. discriminate.
Qed.

End ValidationProps.

(** ** The idempotency guards of the two tasks *)

Module GuardProps.

Import Tasks Examples.

Section Libraries.

Variable json_loads : string -> option pyval.
Variable re_findall : string -> list string.

(** One run on a completed request: the world is left as it was, and
    the run returns (with no value) as soon as the row has been read. *)
Lemma process_completed_once (env : processing_env) (request_id : Z) (w : world)
    (request : SupportRequest) :
  store w !! request_id = Some request ->
  processing_status request = "completed" ->
  snd (process_support_request json_loads re_findall env request_id w) = w /\
  (query_fails env = false ->
     process_support_request json_loads re_findall env request_id w = (inr None, w)).
Proof.
  intros Hrow Hstatus.
  unfold process_support_request, process_try.
  destruct (query_fails env); [split; [reflexivity | discriminate]|].
  rewrite Hrow, Hstatus. split; reflexivity.
Qed.

End Libraries.

(** C5: on a request whose status is already completed, the processing
    handler, run once or twice in a row, leaves the store untouched and
    enqueues nothing, and each run whose lookup goes through returns at
    once with success (the queue files the delivery as a success). *)
Theorem process_completed_is_noop
    (json_loads : string -> option pyval) (re_findall : string -> list string)
    (env1 env2 : processing_env) (request_id : Z) (w : world) (request : SupportRequest) :
  store w !! request_id = Some request ->
  processing_status request = "completed" ->
  let w1 := snd (process_support_request json_loads re_findall env1 request_id w) in
  let w2 := snd (process_support_request json_loads re_findall env2 request_id w1) in
  w1 = w /\ w2 = w /\
  store w2 = store w /\ enqueued w2 = enqueued w /\
  (query_fails env1 = false ->
     process_support_request json_loads re_findall env1 request_id w = (inr None, w) /\
     forall retries,
       deliver_processing json_loads re_findall retries env1 request_id w = (Success None, w)) /\
  (query_fails env2 = false ->
     process_support_request json_loads re_findall env2 request_id w1 = (inr None, w) /\
     forall retries,
       deliver_processing json_loads re_findall retries env2 request_id w1 = (Success None, w)).
Proof.
  intros Hrow Hstatus w1 w2.
  destruct (process_completed_once json_loads re_findall env1 request_id w request Hrow Hstatus)
    as [Hw1 Hret1].
  assert (Hw1' : w1 = w) by exact Hw1.
  destruct (process_completed_once json_loads re_findall env2 request_id w request Hrow Hstatus)
    as [Hw2 Hret2].
  assert (Hw2' : w2 = w) by (unfold w2; rewrite Hw1'; exact Hw2).
  split; [exact Hw1'|]. split; [exact Hw2'|].
  rewrite Hw2'. split; [reflexivity|]. split; [reflexivity|].
  split.
  - intros Hq. split; [now apply Hret1|].
    intros retries. unfold deliver_processing. now rewrite (Hret1 Hq).
  - intros Hq. rewrite Hw1'. split; [now apply Hret2|].
    intros retries. unfold deliver_processing. now rewrite (Hret2 Hq).
Qed.

Lemma process_completed_is_noop_witness :
  let env := quiet_run 2010 2015 2020 2030 in
  let w := world_with 7 completed_row in
  let w1 := snd (process_support_request no_json no_matches env 7 w) in
  let w2 := snd (process_support_request no_json no_matches env 7 w1) in
  w1 = w /\ w2 = w /\
  store w2 = store w /\ enqueued w2 = enqueued w /\
  (query_fails env = false ->
     process_support_request no_json no_matches env 7 w = (inr None, w) /\
     forall retries,
       deliver_processing no_json no_matches retries env 7 w = (Success None, w)) /\
  (query_fails env = false ->
     process_support_request no_json no_matches env 7 w1 = (inr None, w) /\
     forall retries,
       deliver_processing no_json no_matches retries env 7 w1 = (Success None, w)).
Proof.
  apply (process_completed_is_noop no_json no_matches
           (quiet_run 2010 2015 2020 2030) (quiet_run 2010 2015 2020 2030)
           7 (world_with 7 completed_row) completed_row).
  - apply lookup_singleton_eq.
  - reflexivity.
Defined.

(** One run of the notification task on a request already marked sent. *)
Lemma notify_sent_once (env : notification_env) (request_id : Z) (w : world)
    (request : SupportRequest) :
  store w !! request_id = Some request ->
  notification_sent request = "true" ->
  snd (send_teams_notification env request_id w) = w /\
  (notify_query_fails env = false -> send_teams_notification env request_id w = (inr None, w)).
Proof.
  intros Hrow Hsent. unfold send_teams_notification.
  destruct (notify_query_fails env); [split; [reflexivity | discriminate]|].
  rewrite Hrow, Hsent. split; reflexivity.
Qed.

(** C10: on a request whose notification_sent is already "true", any
    number of runs of the notification task for its id leaves the world
    as it was: no webhook call is made and the store does not change. *)
Theorem notify_sent_is_noop
    (envs : list notification_env) (request_id : Z) (w : world) (request : SupportRequest) :
  store w !! request_id = Some request ->
  notification_sent request = "true" ->
  notify_repeatedly envs request_id w = w /\
  webhook_calls (notify_repeatedly envs request_id w) = webhook_calls w /\
  store (notify_repeatedly envs request_id w) = store w /\
  Forall (fun env => snd (send_teams_notification env request_id w) = w /\
                     (notify_query_fails env = false ->
                        send_teams_notification env request_id w = (inr None, w))) envs.
Proof.
  intros Hrow Hsent.
  assert (Hall : notify_repeatedly envs request_id w = w).
  { induction envs as [|env envs IH]; simpl; [reflexivity|].
    destruct (notify_sent_once env request_id w request Hrow Hsent) as [-> _].
    exact IH. }
  rewrite Hall. repeat split.
  apply Forall_forall. intros env _.
  exact (notify_sent_once env request_id w request Hrow Hsent).
Qed.

Lemma notify_sent_is_noop_witness :
  let envs := [webhook_answers 200 3000 3001; webhook_answers 200 3100 3101] in
  let w := world_with 7 notified_row in
  notify_repeatedly envs 7 w = w /\
  webhook_calls (notify_repeatedly envs 7 w) = webhook_calls w /\
  store (notify_repeatedly envs 7 w) = store w /\
  Forall (fun env => snd (send_teams_notification env 7 w) = w /\
                     (notify_query_fails env = false ->
                        send_teams_notification env 7 w = (inr None, w))) envs.
Proof.
  apply (notify_sent_is_noop
           [webhook_answers 200 3000 3001; webhook_answers 200 3100 3101]
           7 (world_with 7 notified_row) notified_row).
  - apply lookup_singleton_eq.
  - reflexivity.
Defined.

End GuardProps.

(** ** Failure paths of the two tasks *)

Module FailureProps.

Import Tasks Examples.

(** C2 (amended): for a request id absent from the store the processing
    handler fails with an error and leaves the world as it was (no row is
    written, nothing is enqueued); the queue treats that error like any
    other: the delivery is retried after 60 seconds while its retry count
    is below 3, and only then becomes the task's terminal failure. *)
Theorem process_absent_request
    (json_loads : string -> option pyval) (re_findall : string -> list string)
    (env : processing_env) (request_id : Z) (w : world) (retries : nat) :
  store w !! request_id = None ->
  exists e,
    process_support_request json_loads re_findall env request_id w = (inl e, w) /\
    deliver_processing json_loads re_findall retries env request_id w =
      (if (retries <? 3)%nat then Retry e 60 else Failure e, w).
Proof.
  intros Hrow. unfold deliver_processing, process_support_request, process_try.
  destruct (query_fails env).
  - exists OperationalError. split; reflexivity.
  - rewrite Hrow. exists AttributeError. split; reflexivity.
Qed.

Lemma process_absent_request_witness :
  store empty_world !! 7 = None /\
  exists e,
    process_support_request no_json no_matches (quiet_run 1010 1015 1020 1030) 7 empty_world
      = (inl e, empty_world) /\
    deliver_processing no_json no_matches 0 (quiet_run 1010 1015 1020 1030) 7 empty_world =
      (if (0 <? 3)%nat then Retry e 60 else Failure e, empty_world).
Proof.
  split; [reflexivity|].
  apply (process_absent_request no_json no_matches (quiet_run 1010 1015 1020 1030)
           7 empty_world 0).
  reflexivity.
Defined.

(** C2 as stated fails: the first delivery for an absent id is put back
    on the queue for a retry; it is not a terminal failure, with NotFound
    or with any other error. *)
Lemma absent_request_is_retried :
  deliver_processing no_json no_matches 0 (quiet_run 1010 1015 1020 1030) 7 empty_world
    = (Retry AttributeError 60, empty_world) /\
  forall e,
    fst (deliver_processing no_json no_matches 0 (quiet_run 1010 1015 1020 1030) 7 empty_world)
      <> Failure e.
Proof.
  split; [reflexivity|]. intros e. simpl. discriminate.
Qed.

(** C1, evaluated where it breaks: the webhook answers 500, or fails at
    the transport, or is not configured at all; the dispatcher returns
    none each time, and the task still writes notification_sent = "true"
    and returns normally. *)
Theorem notification_marked_sent_without_delivery :
  (* the webhook answers 500 *)
  fst (TeamsNotifier.send_cancellation_alert
         (Some "https://teams.example/webhook") (Responds 500 "") 3000 7 completed_row
         (world_with 7 completed_row)) = None /\
  send_teams_notification (webhook_answers 500 3000 3001) 7 (world_with 7 completed_row)
    = (inr (Some {| notified_request_id := 7; notification_id := None |}),
       {| store := {[ 7 := set_updated_at 3001 notified_row ]};
          effects := [ Posted (TeamsNotifier.build_card 7 completed_row);
                       Committed 7 (set_updated_at 3001 notified_row) ] |}) /\
  (* the webhook is not configured *)
  fst (TeamsNotifier.send_cancellation_alert None (Raises TransportError) 3000 7 completed_row
         (world_with 7 completed_row)) = None /\
  send_teams_notification (webhook_unset 3000 3001) 7 (world_with 7 completed_row)
    = (inr (Some {| notified_request_id := 7; notification_id := None |}),
       {| store := {[ 7 := set_updated_at 3001 notified_row ]};
          effects := [ Committed 7 (set_updated_at 3001 notified_row) ] |}) /\
  notification_sent completed_row = "false" /\
  notification_sent (set_updated_at 3001 notified_row) = "true".
Proof.
  split; [reflexivity|]. split.
  { unfold send_teams_notification, webhook_answers, world_with. simpl.
    rewrite lookup_singleton_eq. simpl. unfold commit. simpl.
    now rewrite insert_singleton_eq. }
  split; [reflexivity|]. split.
  { unfold send_teams_notification, webhook_unset, world_with. simpl.
    rewrite lookup_singleton_eq. simpl. unfold commit. simpl.
    now rewrite insert_singleton_eq. }
  split; reflexivity.
Qed.

(** Whatever the dispatcher returns, a run of the notification task whose
    commit goes through leaves the row marked as sent. *)
Lemma notification_marked_sent_whatever_the_delivery
    (env : notification_env) (request_id : Z) (w : world) (request : SupportRequest) (t : Z) :
  notify_query_fails env = false ->
  store w !! request_id = Some request ->
  notification_sent request <> "true" ->
  commit_sent env = CommitOk t ->
  store (snd (send_teams_notification env request_id w)) !! request_id
    = Some (set_updated_at t (set_notification_sent "true" request)).
Proof.
  intros Hq Hrow Hsent Hc. apply String.eqb_neq in Hsent.
  unfold send_teams_notification. rewrite Hq, Hrow, Hsent, Hc.
  destruct (TeamsNotifier.send_cancellation_alert _ _ _ _ _ _) as [nid w1].
  cbn [commit snd store]. apply lookup_insert_eq.
Qed.

End FailureProps.

(** ** What the processing task writes, and when it enqueues *)

Module ProcessingProps.

Import Tasks Examples.

(** C3, evaluated where it breaks.  First delivery: the request is
    classified cancellation_request and persisted as completed with
    processed_at = 1015, then the enqueue of the notification task raises;
    the [except] clause marks the row failed and the queue schedules a
    retry.  The row now has processed_at set and status "failed".  Second
    delivery: the guard lets the failed row through, and processed_at is
    overwritten with 1115. *)
Theorem processed_at_rewritten_after_enqueue_failure :
  let w0 := world_with 7 cancel_row in
  let d1 := deliver_processing no_json no_matches 0
              (broker_down_run 1010 1015 1020 1030) 7 w0 in
  let d2 := deliver_processing no_json no_matches 1
              (quiet_run 1110 1115 1120 1130) 7 (snd d1) in
  processed_at <$> store w0 !! 7 = Some None /\
  fst d1 = Retry OperationalError 60 /\
  processing_status <$> store (snd d1) !! 7 = Some "failed" /\
  processed_at <$> store (snd d1) !! 7 = Some (Some 1015) /\
  fst d2 = Success (Some {| result_request_id := 7;
                            result_category := "cancellation_request";
                            result_summary :=
                              PyStr "Fallback classification: cancellation_request (keyword: cancel)" |}) /\
  processing_status <$> store (snd d2) !! 7 = Some "completed" /\
  processed_at <$> store (snd d2) !! 7 = Some (Some 1115).
Proof.
  vm_compute. repeat split.
Qed.

(** C4 as stated fails on the confidence: two validated answers that
    differ in their confidence alone are written to a row as the very
    same row, so the stored request does not hold the confidence. *)
Lemma confidence_is_not_stored :
  exists ai1 ai2,
    Classifier.validate_classification_result Classifier.default_config 1014
      (billing_answer 0.9) "Payment issue" "charged twice" = inr ai1 /\
    Classifier.validate_classification_result Classifier.default_config 1014
      (billing_answer 0.5) "Payment issue" "charged twice" = inr ai2 /\
    Classifier.confidence ai1 = PyFloat (FFinite 0.9) /\
    Classifier.confidence ai2 = PyFloat (FFinite 0.5) /\
    Classifier.confidence ai1 <> Classifier.confidence ai2 /\
    forall now r, store_ai_result ai1 now r = store_ai_result ai2 now r.
Proof.
  eexists. eexists.
  split; [reflexivity|]. split; [reflexivity|].
  split; [reflexivity|]. split; [reflexivity|].
  split; [simpl; discriminate|]. reflexivity.
Qed.

Section Libraries.

Variable json_loads : string -> option pyval.
Variable re_findall : string -> list string.

(** The run through both commits: what each commit writes, and what
    follows the second one. *)
Lemma process_run_to_completion (env : processing_env) (request_id : Z) (w : world)
    (request : SupportRequest) (t1 t2 : Z) (ai : Classifier.classification) :
  query_fails env = false ->
  store w !! request_id = Some request ->
  processing_status request <> "completed" ->
  commit_processing env = CommitOk t1 ->
  commit_completed env = CommitOk t2 ->
  Classifier.classify_request json_loads re_findall (classifier_config env) (ollama env)
    (subject request) (description request) = inr ai ->
  let row1 := set_updated_at t1 (set_processing_status "processing" request) in
  let row2 := set_updated_at t2 (store_ai_result ai (processed_now env) row1) in
  let w2 := {| store := <[request_id := row2]> (<[request_id := row1]> (store w));
               effects := (effects w ++ [Committed request_id row1; Committed request_id row2])%list |} in
  let returned := {| result_request_id := request_id;
                     result_category := Classifier.category ai;
                     result_summary := Classifier.summary ai |} in
  process_support_request json_loads re_findall env request_id w =
    if String.eqb (Classifier.category ai) "cancellation_request"
    then
      if delay_fails env
      then
        match commit (commit_failed env) request_id (set_processing_status "failed" row2) w2 with
        | inl e' => (inl e', w2)
        | inr (_, w3) => (inl OperationalError, w3)
        end
      else (inr (Some returned),
            {| store := store w2; effects := (effects w2 ++ [Enqueued request_id])%list |})
    else (inr (Some returned), w2).
Proof.
  intros Hq Hrow Hstatus Hc1 Hc2 Hai row1 row2 w2 returned.
  apply String.eqb_neq in Hstatus.
  unfold process_support_request, process_try.
  rewrite Hq, Hrow, Hstatus, Hc1. cbn [commit store effects].
  change (subject (set_updated_at t1 (set_processing_status "processing" request)))
    with (subject request).
  change (description (set_updated_at t1 (set_processing_status "processing" request)))
    with (description request).
  rewrite Hai, Hc2. cbn [commit store effects].
  rewrite <- app_assoc. cbn [app]. fold row1. fold row2. fold w2. fold returned.
  destruct (String.eqb (Classifier.category ai) "cancellation_request");
    [|reflexivity].
  destruct (delay_fails env); reflexivity.
Qed.

End Libraries.

(** C4 (amended): when the classification succeeds and both commits go
    through, the handler's second commit writes category, ai_summary,
    processed_at = now and status = completed in one row, every other
    column as it was; the only earlier write changes the status alone, so
    no derived field is written apart from the others.  The confidence is
    not among the columns. *)
Theorem processing_success_persists_together
    (json_loads : string -> option pyval) (re_findall : string -> list string)
    (env : processing_env) (request_id : Z) (w : world)
    (request : SupportRequest) (t1 t2 : Z) :
  query_fails env = false ->
  store w !! request_id = Some request ->
  processing_status request <> "completed" ->
  commit_processing env = CommitOk t1 ->
  commit_completed env = CommitOk t2 ->
  exists ai rest,
    let run := process_support_request json_loads re_findall env request_id w in
    let row1 := set_updated_at t1 (set_processing_status "processing" request) in
    let row2 := set_updated_at t2 (store_ai_result ai (processed_now env) row1) in
    Classifier.classify_request json_loads re_findall (classifier_config env) (ollama env)
      (subject request) (description request) = inr ai /\
    effects (snd run) =
      (effects w ++ [Committed request_id row1; Committed request_id row2] ++ rest)%list /\
    (forall row, In (Committed request_id row) rest -> processing_status row = "failed") /\
    (* the first write: the status alone *)
    processing_status row1 = "processing" /\
    category row1 = category request /\
    ai_summary row1 = ai_summary request /\
    processed_at row1 = processed_at request /\
    (* the second write: the derived fields, together *)
    category row2 = Some (Classifier.category ai) /\
    ai_summary row2 = Some (Classifier.summary ai) /\
    processed_at row2 = Some (processed_now env) /\
    processing_status row2 = "completed" /\
    customer_name row2 = customer_name request /\
    email row2 = email request /\
    subject row2 = subject request /\
    description row2 = description request /\
    notification_sent row2 = notification_sent request /\
    created_at row2 = created_at request /\
    (delay_fails env = false ->
       store (snd run) !! request_id = Some row2 /\
       fst run = inr (Some {| result_request_id := request_id;
                              result_category := Classifier.category ai;
                              result_summary := Classifier.summary ai |})).
Proof.
  intros Hq Hrow Hstatus Hc1 Hc2.
  destruct (ClassifierProps.classify_request_returns json_loads re_findall
              (classifier_config env) (ollama env) (subject request) (description request))
    as [ai Hai].
  exists ai.
  pose proof (process_run_to_completion json_loads re_findall env request_id w request
                t1 t2 ai Hq Hrow Hstatus Hc1 Hc2 Hai) as Hrun.
  cbv zeta in Hrun.
  destruct (String.eqb (Classifier.category ai) "cancellation_request").
  - destruct (delay_fails env).
    + destruct (commit_failed env) as [t3|]; cbn [commit store effects] in Hrun.
      * eexists [Committed request_id _]. cbv zeta. rewrite Hrun. cbn [fst snd store effects].
        split; [exact Hai|]. split; [now rewrite <- app_assoc|].
        split; [intros row [[= <-]|[]]; reflexivity|].
        repeat (split; [reflexivity|]). discriminate.
      * exists []. cbv zeta. rewrite Hrun. cbn [fst snd store effects].
        split; [exact Hai|]. split; [reflexivity|].
        split; [intros row []|].
        repeat (split; [reflexivity|]). discriminate.
    + exists [Enqueued request_id]. cbv zeta. rewrite Hrun. cbn [fst snd store effects].
      split; [exact Hai|]. split; [now rewrite <- app_assoc|].
      split; [intros row [[=]|[]]|].
      repeat (split; [reflexivity|]). intros _. split; [apply lookup_insert_eq | reflexivity].
  - exists []. cbv zeta. rewrite Hrun. cbn [fst snd store effects].
    split; [exact Hai|]. split; [reflexivity|].
    split; [intros row []|].
    repeat (split; [reflexivity|]). intros _. split; [apply lookup_insert_eq | reflexivity].
Qed.


Lemma processing_success_persists_together_witness :
  exists row,
    store (snd (process_support_request no_json no_matches
                  (quiet_run 1010 1015 1020 1030) 7 (world_with 7 cancel_row))) !! 7 = Some row /\
    category row = Some "cancellation_request" /\
    processed_at row = Some 1015 /\
    processing_status row = "completed".
Proof.
  destruct (processing_success_persists_together no_json no_matches
              (quiet_run 1010 1015 1020 1030) 7 (world_with 7 cancel_row) cancel_row 1010 1020)
    as (ai & rest & Hai & _ & _ & _ & _ & _ & _ & Hcat & _ & Hat & Hst & _ & _ & _ & _ & _ & _ & Hok).
  - reflexivity.
  - apply lookup_singleton_eq.
  - discriminate.
  - reflexivity.
  - reflexivity.
  - destruct (Hok eq_refl) as [Hrow _].
    eexists. split; [exact Hrow|].
    split; [|split; [exact Hat | exact Hst]].
    rewrite Hcat. vm_compute in Hai. now injection Hai as <-.
Defined.

Ltac in_cases H :=
  cbn [In] in H;
  repeat match type of H with
         | _ \/ _ => destruct H as [H|H]
         | False => contradiction
         end;
  try discriminate H.

(** Closes the five clauses about [new] when [new] holds no enqueue and
    no commit of a completed row, and the run returned no result dict. *)
Ltac no_enqueue :=
  let Hin := fresh "Hin" in
  let Hst := fresh "Hst" in
  let Hres := fresh "Hres" in
  cbn [fst snd store effects];
  repeat match goal with |- _ /\ _ => split end;
  [ intros ? Hin; in_cases Hin
  | intros ? Hin Hst; in_cases Hin;
    try (injection Hin as <-; cbn in Hst; discriminate Hst)
  | intros ? Hres; discriminate Hres
  | intros _ Hin; in_cases Hin
  | intros ? _ Hin; in_cases Hin ].

(** C9 (amended): a run of the processing handler enqueues a notification
    task only for its own request id and only right after the commit that
    wrote the completed row with category cancellation_request (the row
    is in the store at that point, with its summary and processed_at).
    A run that gets through both commits enqueues the task exactly when
    the resulting category is cancellation_request and the broker takes
    the task: when the broker refuses, the enqueue raises and the run has
    enqueued nothing.  A run that returns early or raises enqueues
    nothing. *)
Theorem enqueue_iff_cancellation_after_persist
    (json_loads : string -> option pyval) (re_findall : string -> list string)
    (env : processing_env) (request_id : Z) (w : world) :
  let run := process_support_request json_loads re_findall env request_id w in
  (exists new,
    effects (snd run) = (effects w ++ new)%list /\
    (forall request_id', In (Enqueued request_id') new ->
       request_id' = request_id /\
       exists before row,
         new = (before ++ [Committed request_id row; Enqueued request_id])%list /\
         processing_status row = "completed" /\
         category row = Some "cancellation_request" /\
         is_Some (ai_summary row) /\
         processed_at row = Some (processed_now env) /\
         store (snd run) !! request_id = Some row) /\
    (forall row, In (Committed request_id row) new -> processing_status row = "completed" ->
       delay_fails env = false ->
       (In (Enqueued request_id) new <-> category row = Some "cancellation_request")) /\
    (forall res, fst run = inr (Some res) ->
       (In (Enqueued request_id) new <-> result_category res = "cancellation_request")) /\
    (fst run = inr None -> ~ In (Enqueued request_id) new) /\
    (forall e, fst run = inl e -> ~ In (Enqueued request_id) new)) /\
  (forall request t1 t2 ai,
     query_fails env = false ->
     store w !! request_id = Some request ->
     processing_status request <> "completed" ->
     commit_processing env = CommitOk t1 ->
     commit_completed env = CommitOk t2 ->
     Classifier.classify_request json_loads re_findall (classifier_config env) (ollama env)
       (subject request) (description request) = inr ai ->
     let row1 := set_updated_at t1 (set_processing_status "processing" request) in
     let row2 := set_updated_at t2 (store_ai_result ai (processed_now env) row1) in
     (Classifier.category ai = "cancellation_request" -> delay_fails env = false ->
        effects (snd run) =
          (effects w ++ [Committed request_id row1; Committed request_id row2;
                         Enqueued request_id])%list /\
        enqueued (snd run) = (enqueued w ++ [Enqueued request_id])%list /\
        store (snd run) !! request_id = Some row2 /\
        fst run = inr (Some {| result_request_id := request_id;
                               result_category := Classifier.category ai;
                               result_summary := Classifier.summary ai |})) /\
     (Classifier.category ai = "cancellation_request" -> delay_fails env = true ->
        enqueued (snd run) = enqueued w /\
        fst run = inl OperationalError) /\
     (Classifier.category ai <> "cancellation_request" ->
        effects (snd run) =
          (effects w ++ [Committed request_id row1; Committed request_id row2])%list /\
        enqueued (snd run) = enqueued w /\
        store (snd run) !! request_id = Some row2 /\
        fst run = inr (Some {| result_request_id := request_id;
                               result_category := Classifier.category ai;
                               result_summary := Classifier.summary ai |}))).
Proof.
  intros run. split.
  {
    destruct (query_fails env) eqn:Hq.
    { exists []. subst run. unfold process_support_request, process_try. rewrite Hq.
      split; [now rewrite app_nil_r|]. no_enqueue. }
    destruct (store w !! request_id) as [request|] eqn:Hrow.
    2: { exists []. subst run. unfold process_support_request, process_try. rewrite Hq, Hrow.
         split; [now rewrite app_nil_r|]. no_enqueue. }
    destruct (String.eqb (processing_status request) "completed") eqn:Hdone.
    { exists []. subst run. unfold process_support_request, process_try.
      rewrite Hq, Hrow, Hdone.
      split; [now rewrite app_nil_r|]. no_enqueue. }
    destruct (commit_processing env) as [t1|] eqn:Hc1.
    2: { subst run. unfold process_support_request, process_try.
         rewrite Hq, Hrow, Hdone, Hc1. cbn [commit].
         destruct (commit_failed env) as [t3|].
         - eexists [Committed request_id _]. split; [reflexivity|]. no_enqueue.
         - exists []. split; [now rewrite app_nil_r|]. no_enqueue. }
    destruct (ClassifierProps.classify_request_returns json_loads re_findall
                (classifier_config env) (ollama env) (subject request) (description request))
      as [ai Hai].
    destruct (commit_completed env) as [t2|] eqn:Hc2.
    2: { subst run. unfold process_support_request, process_try.
         rewrite Hq, Hrow, Hdone, Hc1. cbn [commit store effects].
         change (subject (set_updated_at t1 (set_processing_status "processing" request)))
           with (subject request).
         change (description (set_updated_at t1 (set_processing_status "processing" request)))
           with (description request).
         rewrite Hai, Hc2. cbn [commit store effects].
         destruct (commit_failed env) as [t3|].
         - eexists [Committed request_id _; Committed request_id _].
           split; [cbn [commit fst snd store effects]; now rewrite <- app_assoc|]. no_enqueue.
         - eexists [Committed request_id _]. split; [reflexivity|]. no_enqueue. }
    apply String.eqb_neq in Hdone.
    pose proof (process_run_to_completion json_loads re_findall env request_id w
                  request t1 t2 ai Hq Hrow Hdone Hc1 Hc2 Hai) as Hrun.
    cbv zeta in Hrun. fold run in Hrun.
    destruct (String.eqb (Classifier.category ai) "cancellation_request") eqn:Hcat.
    - apply String.eqb_eq in Hcat.
      destruct (delay_fails env) eqn:Hdelay.
      + destruct (commit_failed env) as [t3|]; cbn [commit store effects] in Hrun; rewrite Hrun.
        * eexists [Committed request_id _; Committed request_id _; Committed request_id _].
          split; [cbn [snd effects]; now rewrite <- app_assoc|].
          cbn [fst snd store effects].
          repeat match goal with |- _ /\ _ => split end.
          -- intros ? Hin; in_cases Hin.
          -- intros ? _ _ Hno. discriminate Hno.
          -- intros ? Hres; discriminate Hres.
          -- intros Hres; discriminate Hres.
          -- intros ? _ Hin; in_cases Hin.
        * eexists [Committed request_id _; Committed request_id _].
          split; [reflexivity|].
          cbn [fst snd store effects].
          repeat match goal with |- _ /\ _ => split end.
          -- intros ? Hin; in_cases Hin.
          -- intros ? _ _ Hno. discriminate Hno.
          -- intros ? Hres; discriminate Hres.
          -- intros Hres; discriminate Hres.
          -- intros ? _ Hin; in_cases Hin.
      + rewrite Hrun.
        eexists [Committed request_id _; Committed request_id _; Enqueued request_id].
        split; [cbn [snd effects]; now rewrite <- app_assoc|].
        cbn [fst snd store effects].
        repeat match goal with |- _ /\ _ => split end.
        * intros request_id' Hin. in_cases Hin. injection Hin as <-.
          split; [reflexivity|].
          eexists [Committed request_id _], _. split; [reflexivity|].
          cbn. rewrite Hcat. repeat split; [now eexists | apply lookup_insert_eq].
        * intros row Hin Hstatus _. split; [|intros _; cbn; auto].
          intros _. in_cases Hin.
          -- injection Hin as <-. cbn in Hstatus. discriminate Hstatus.
          -- injection Hin as <-. cbn. now rewrite Hcat.
        * intros res [= <-]. cbn. split; [intros _; exact Hcat | auto].
        * intros Hres; discriminate Hres.
        * intros ? Hres; discriminate Hres.
    - apply String.eqb_neq in Hcat. rewrite Hrun.
      eexists [Committed request_id _; Committed request_id _].
      split; [reflexivity|].
      cbn [fst snd store effects].
      repeat match goal with |- _ /\ _ => split end.
      + intros ? Hin; in_cases Hin.
      + intros row Hin Hstatus _. split; [intros Hen; in_cases Hen|].
        intros Hrowcat. in_cases Hin.
        * injection Hin as <-. cbn in Hstatus. discriminate Hstatus.
        * injection Hin as <-. cbn in Hrowcat. congruence.
      + intros res [= <-]. cbn. split; [intros Hen; in_cases Hen | intros; contradiction].
      + intros Hres; discriminate Hres.
      + intros ? Hres; discriminate Hres.
  }
  intros request t1 t2 ai Hq Hrow Hstatus Hc1 Hc2 Hai row1 row2.
  pose proof (process_run_to_completion json_loads re_findall env request_id w request
                t1 t2 ai Hq Hrow Hstatus Hc1 Hc2 Hai) as Hrun.
  cbv zeta in Hrun. fold run in Hrun. fold row1 in Hrun. fold row2 in Hrun.
  split; [|split].
  - intros Hcat Hdelay. apply String.eqb_eq in Hcat. rewrite Hcat, Hdelay in Hrun.
    rewrite Hrun. cbn [fst snd store effects]. unfold enqueued. cbn [effects].
    split; [now rewrite <- app_assoc|].
    split; [rewrite !List.filter_app; cbn [List.filter is_enqueue]; now rewrite app_nil_r|].
    split; [apply lookup_insert_eq | reflexivity].
  - intros Hcat Hdelay. apply String.eqb_eq in Hcat. rewrite Hcat, Hdelay in Hrun.
    rewrite Hrun.
    destruct (commit_failed env) as [t3|]; cbn [commit fst snd store effects];
      unfold enqueued; cbn [effects]; (split; [|reflexivity]);
      rewrite !List.filter_app; cbn [List.filter is_enqueue]; now rewrite !app_nil_r.
  - intros Hcat. apply String.eqb_neq in Hcat. rewrite Hcat in Hrun.
    rewrite Hrun. cbn [fst snd store effects]. unfold enqueued. cbn [effects].
    split; [reflexivity|].
    split; [rewrite !List.filter_app; cbn [List.filter is_enqueue]; now rewrite app_nil_r|].
    split; [apply lookup_insert_eq | reflexivity].
Qed.

Lemma enqueue_iff_cancellation_after_persist_witness :
  enqueued (snd (process_support_request no_json no_matches
                   (quiet_run 1010 1015 1020 1030) 7 (world_with 7 cancel_row)))
    = [Enqueued 7] /\
  processing_status <$>
    store (snd (process_support_request no_json no_matches
                  (quiet_run 1010 1015 1020 1030) 7 (world_with 7 cancel_row))) !! 7
    = Some "completed".
Proof.
  destruct (enqueue_iff_cancellation_after_persist no_json no_matches
              (quiet_run 1010 1015 1020 1030) 7 (world_with 7 cancel_row))
    as [_ Hif].
  assert (Hrow0 : store (world_with 7 cancel_row) !! 7 = Some cancel_row)
    by apply lookup_singleton_eq.
  assert (Hpending : processing_status cancel_row <> "completed") by discriminate.
  pose proof (Hif cancel_row 1010 1020
                (Classifier.fallback_classify "Cancel my subscription" "stop billing me")
                eq_refl Hrow0 Hpending eq_refl eq_refl eq_refl) as Hcase.
  cbv zeta in Hcase. destruct Hcase as [Hyes _].
  destruct (Hyes eq_refl eq_refl) as (_ & Henq & Hrow & _).
  split; [exact Henq|]. now rewrite Hrow.
Defined.

(** C9 as stated fails when the broker refuses the task: the run has
    classified the request cancellation_request and committed the
    completed row, the enqueue raises, and no notification task has been
    enqueued. *)
Lemma cancellation_not_enqueued_when_broker_refuses :
  In (Committed 7 completed_row)
     (effects (snd (process_support_request no_json no_matches
                      (broker_down_run 1010 1015 1020 1030) 7 (world_with 7 cancel_row)))) /\
  processing_status completed_row = "completed" /\
  category completed_row = Some "cancellation_request" /\
  category <$>
    store (snd (process_support_request no_json no_matches
                  (broker_down_run 1010 1015 1020 1030) 7 (world_with 7 cancel_row))) !! 7
    = Some (Some "cancellation_request") /\
  enqueued (snd (process_support_request no_json no_matches
                   (broker_down_run 1010 1015 1020 1030) 7 (world_with 7 cancel_row))) = [] /\
  fst (process_support_request no_json no_matches
         (broker_down_run 1010 1015 1020 1030) 7 (world_with 7 cancel_row))
    = inl OperationalError.
Proof.
  split; [vm_compute; tauto|]. vm_compute. repeat split.
Qed.

End ProcessingProps.


(** ** More on strings *)

Module TextFacts.

Lemma lower_ascii_idempotent (c : ascii) : lower_ascii (lower_ascii c) = lower_ascii c.
Proof.
  destruct c as [[] [] [] [] [] [] [] []]; vm_compute; reflexivity.
Qed.

Lemma lower_idempotent (s : string) : lower (lower s) = lower s.
Proof.
  induction s as [|c s IH]; simpl; [reflexivity|].
  now rewrite lower_ascii_idempotent, IH.
Qed.

Lemma lower_append (s t : string) : lower (s ++ t) = lower s ++ lower t.
Proof.
  induction s as [|c s IH]; simpl; [reflexivity | now rewrite IH].
Qed.

Lemma prefix_append (kw s t : string) :
  String.prefix kw s = true -> String.prefix kw (s ++ t) = true.
Proof.
  revert kw. induction s as [|c s IH]; intros [|k kw]; simpl; try reflexivity; try discriminate.
  - now destruct t.
  - destruct (ascii_dec k c); [apply IH | discriminate].
Qed.

(** A keyword found in the left part is found in the whole. *)
Lemma str_in_append_l (kw s t : string) :
  str_in kw s = true -> str_in kw (s ++ t) = true.
Proof.
  induction s as [|c s IH].
  - simpl. rewrite orb_false_r. intros H. destruct kw; [|discriminate H].
    destruct t; reflexivity.
  - cbn [str_in]. intros H. apply orb_true_iff in H. apply orb_true_iff.
    destruct H as [H|H]; [left | right].
    + now apply (prefix_append kw (String c s) t).
    + now apply IH.
Qed.

(** A keyword found in the right part is found in the whole. *)
Lemma str_in_append_r (kw s t : string) :
  str_in kw t = true -> str_in kw (s ++ t) = true.
Proof.
  intros H. induction s as [|c s IH]; [exact H|].
  change (String c s ++ t) with (String c (s ++ t)). cbn [str_in].
  rewrite IH. apply orb_true_r.
Qed.

End TextFacts.

(** ** The keyword fallback *)

Module FallbackProps.

Import Classifier Examples TextFacts.

Lemma fallback_table_categories (keyword cat : string) :
  In (keyword, cat) fallback_categories ->
  In cat valid_categories /\ cat <> "other" /\ cat <> "general_inquiry".
Proof.
  unfold fallback_categories. cbn [In]. intros H.
  repeat (destruct H as [H|H];
          [injection H as <- <-; repeat split; [cbn; tauto | discriminate | discriminate]|]).
  contradiction.
Qed.

Lemma fallback_text_lower (subject description : string) :
  fallback_text subject description = lower subject ++ " " ++ lower description.
Proof.
  unfold fallback_text. now rewrite !lower_append.
Qed.

(** The fallback's category is a valid one other than "other". *)
Lemma fallback_classify_valid (subject description : string) :
  In (category (fallback_classify subject description)) valid_categories /\
  category (fallback_classify subject description) <> "other" /\
  method (fallback_classify subject description) = "fallback".
Proof.
  unfold fallback_classify.
  destruct (first_keyword (fallback_text subject description)) as [[keyword cat]|] eqn:Hfirst.
  - apply List.find_some in Hfirst. destruct Hfirst as [Hin _].
    destruct (fallback_table_categories keyword cat Hin) as (Hvalid & Hother & _).
    repeat split; assumption.
  - repeat split; [cbn; tauto | discriminate].
Qed.

(** The fallback always answers with one of the valid categories, never
    with "other", under method "fallback" and without model or timestamp.
    Its confidence is 0.6 when some keyword of the table occurs in the
    lowered text, and then the category is the one of an occurring
    keyword; it is 0.5 with general_inquiry when none occurs. *)
Theorem fallback_classify_shape (subject description : string) :
  let r := fallback_classify subject description in
  let text := fallback_text subject description in
  In (category r) valid_categories /\
  category r <> "other" /\
  method r = "fallback" /\ model r = None /\ timestamp r = None /\
  ((exists keyword cat, In (keyword, cat) fallback_categories /\ str_in keyword text = true) ->
     confidence r = PyFloat (FFinite 0.6) /\
     exists keyword, In (keyword, category r) fallback_categories /\ str_in keyword text = true) /\
  ((forall keyword cat, In (keyword, cat) fallback_categories -> str_in keyword text = false) ->
     confidence r = PyFloat (FFinite 0.5) /\
     category r = "general_inquiry" /\
     summary r = PyStr "General inquiry - requires manual review").
Proof.
  intros r text. subst r. unfold fallback_classify. fold text.
  destruct (first_keyword text) as [[keyword cat]|] eqn:Hfirst.
  - apply List.find_some in Hfirst. destruct Hfirst as [Hin Hhit]. cbn [fst] in Hhit.
    destruct (fallback_table_categories keyword cat Hin) as (Hvalid & Hother & _).
    cbn [category method model timestamp confidence summary].
    split; [assumption|]. split; [assumption|].
    split; [reflexivity|]. split; [reflexivity|]. split; [reflexivity|].
    split.
    + intros _. split; [reflexivity|]. exists keyword. split; assumption.
    + intros Hnone. rewrite (Hnone keyword cat Hin) in Hhit. discriminate.
  - cbn [category method model timestamp confidence summary].
    split; [cbn; tauto|]. split; [discriminate|].
    split; [reflexivity|]. split; [reflexivity|]. split; [reflexivity|].
    split.
    + intros (keyword & cat & Hin & Hhit).
      pose proof (List.find_none _ _ Hfirst (keyword, cat) Hin) as Hmiss.
      cbn [fst] in Hmiss. rewrite Hmiss in Hhit. discriminate.
    + intros _. repeat split.
Qed.

(** The three cancellation keywords come first in the table: when one of
    them occurs in the subject or in the description, in any letter case,
    the fallback answers cancellation_request with confidence 0.6,
    whatever other keywords occur. *)
Theorem cancellation_keywords_take_precedence (subject description keyword : string) :
  In keyword ["cancel"; "refund"; "stop"] ->
  str_in keyword (lower subject) = true \/ str_in keyword (lower description) = true ->
  category (fallback_classify subject description) = "cancellation_request" /\
  confidence (fallback_classify subject description) = PyFloat (FFinite 0.6) /\
  method (fallback_classify subject description) = "fallback".
Proof.
  intros Hkw Hocc.
  assert (Hhit : str_in keyword (fallback_text subject description) = true).
  { rewrite fallback_text_lower. destruct Hocc as [H|H].
    - now apply str_in_append_l.
    - apply str_in_append_r. now apply str_in_append_r. }
  unfold fallback_classify, first_keyword, fallback_categories. cbn [List.find fst].
  destruct (str_in "cancel" (fallback_text subject description)) eqn:H1;
    [repeat split|].
  destruct (str_in "refund" (fallback_text subject description)) eqn:H2;
    [repeat split|].
  destruct (str_in "stop" (fallback_text subject description)) eqn:H3;
    [repeat split|].
  cbn [In] in Hkw. destruct Hkw as [<-|[<-|[<-|[]]]]; congruence.
Qed.

Lemma cancellation_keywords_take_precedence_witness :
  category (fallback_classify "Payment issue with my invoice" "Need REFUND for duplicate charge")
    = "cancellation_request" /\
  confidence (fallback_classify "Payment issue with my invoice" "Need REFUND for duplicate charge")
    = PyFloat (FFinite 0.6) /\
  method (fallback_classify "Payment issue with my invoice" "Need REFUND for duplicate charge")
    = "fallback".
Proof.
  apply (cancellation_keywords_take_precedence
           "Payment issue with my invoice" "Need REFUND for duplicate charge" "refund").
  - cbn. tauto.
  - right. reflexivity.
Defined.

(** The fallback does not see letter case: two requests whose subjects
    and descriptions agree after lowering get the same answer. *)
Theorem fallback_classify_ignores_case (subject1 description1 subject2 description2 : string) :
  lower subject1 = lower subject2 ->
  lower description1 = lower description2 ->
  fallback_classify subject1 description1 = fallback_classify subject2 description2.
Proof.
  intros Hs Hd. unfold fallback_classify.
  now rewrite (fallback_text_lower subject1), (fallback_text_lower subject2), Hs, Hd.
Qed.

Lemma fallback_classify_ignores_case_witness :
  fallback_classify "CANCEL My Subscription" "Stop Billing Me"
    = fallback_classify "cancel my subscription" "stop billing me".
Proof.
  apply (fallback_classify_ignores_case
           "CANCEL My Subscription" "Stop Billing Me"
           "cancel my subscription" "stop billing me");
    reflexivity.
Defined.

End FallbackProps.

(** ** Parsing and validating the model's answer *)

Module ParsingProps.

Import Classifier Examples StringFacts.

Section Libraries.

Variable json_loads : string -> option pyval.
Variable re_findall : string -> list string.

Lemma first_decoded_none (matches : list string) :
  Forall (fun m => json_loads m = None) matches ->
  first_decoded json_loads matches = None.
Proof.
  induction 1 as [|m matches Hm _ IH]; simpl; [reflexivity | now rewrite Hm].
Qed.

Lemma first_decoded_first (before after : list string) (m : string) (v : pyval) :
  Forall (fun x => json_loads x = None) before ->
  json_loads m = Some v ->
  first_decoded json_loads (before ++ m :: after)%list = Some v.
Proof.
  intros Hbefore Hm.
  induction Hbefore as [|x before Hx _ IH]; simpl; [now rewrite Hm | now rewrite Hx].
Qed.

End Libraries.

(** [parse_ai_response] tries its strategies in order.  [json_loads m =
    None] stands for [json.loads(m)] raising [JSONDecodeError], the one
    exception the function catches.  A text that decodes as a whole
    (after stripping) gives that value whatever the regex finds; when the
    whole text is rejected, the first regex match that decodes gives the
    value, the matches before it having been rejected; when the whole
    text and every match are rejected the result is the default dict.  A
    response that is not text raises [AttributeError]. *)
Theorem parse_ai_response_strategies
    (json_loads : string -> option pyval) (re_findall : string -> list string) :
  (forall text whole,
     json_loads (strip text) = Some whole ->
     parse_ai_response json_loads re_findall (PyStr text) = inr whole) /\
  (forall text before m after found,
     json_loads (strip text) = None ->
     re_findall text = (before ++ m :: after)%list ->
     Forall (fun x => json_loads x = None) before ->
     json_loads m = Some found ->
     parse_ai_response json_loads re_findall (PyStr text) = inr found) /\
  (forall text,
     json_loads (strip text) = None ->
     Forall (fun m => json_loads m = None) (re_findall text) ->
     parse_ai_response json_loads re_findall (PyStr text) = inr parse_default) /\
  (forall x, (forall text, x <> PyStr text) ->
     parse_ai_response json_loads re_findall x = inl AttributeError).
Proof.
  split; [|split; [|split]].
  - intros text whole Hwhole. unfold parse_ai_response. now rewrite Hwhole.
  - intros text before m after found Hwhole Hsplit Hbefore Hm.
    unfold parse_ai_response.
    now rewrite Hwhole, Hsplit, (first_decoded_first json_loads before after m found Hbefore Hm).
  - intros text Hwhole Hnone. unfold parse_ai_response.
    now rewrite Hwhole, (first_decoded_none json_loads _ Hnone).
  - intros x Hx. destruct x; try reflexivity. now contradiction (Hx s).
Qed.

Lemma dict_get_absent (d : list (string * pyval)) (key : string) (default : pyval) :
  Forall (fun item => fst item <> key) d -> dict_get d key default = default.
Proof.
  induction 1 as [|[k v] d Hk _ IH]; simpl; [reflexivity|].
  cbn [fst] in Hk. apply String.eqb_neq in Hk. now rewrite Hk.
Qed.

(** A parsed answer that lacks the three keys (the empty dict, say) is
    validated into general_inquiry, "No summary provided" and 0.7. *)
Theorem validate_fills_missing_keys
    (cfg : config) (now : Z) (d : list (string * pyval)) (subject description : string) :
  Forall (fun item => fst item <> "category" /\ fst item <> "summary" /\
                      fst item <> "confidence") d ->
  validate_classification_result cfg now (PyDict d) subject description =
    inr {| category := "general_inquiry";
           summary := PyStr "No summary provided";
           confidence := PyFloat (FFinite 0.7);
           method := "ollama_ai";
           model := Some (ollama_model cfg);
           timestamp := Some now |}.
Proof.
  intros Hkeys. unfold validate_classification_result. cbn [py_get bind].
  rewrite !dict_get_absent; [reflexivity| | |];
    (eapply List.Forall_impl; [|exact Hkeys]); intros item (Hc & Hs & Hf); assumption.
Qed.

Lemma validate_fills_missing_keys_witness :
  validate_classification_result default_config 1014 (PyDict [("note", PyNone)]) "s" "d" =
    inr {| category := "general_inquiry";
           summary := PyStr "No summary provided";
           confidence := PyFloat (FFinite 0.7);
           method := "ollama_ai";
           model := Some "llama3.1:8b";
           timestamp := Some 1014 |}.
Proof.
  apply (validate_fills_missing_keys default_config 1014 [("note", PyNone)] "s" "d").
  constructor; [|constructor]. cbn. repeat split; discriminate.
Defined.

(** When the validation raises: on an answer that is not a dict, with
    [AttributeError]; on a dict, exactly when the summary has no length
    (None, a bool, a number) or is a list or dict of more than 500
    entries.  The exception is a [TypeError] for a summary without length
    and for a long list; for a long dict the slice raises, with a class
    that depends on the interpreter and is not stated here.  In every
    other case the validation returns. *)
Theorem validate_raises_exactly
    (cfg : config) (now : Z) (result : pyval) (subject description : string) :
  ((exists e, validate_classification_result cfg now result subject description = inl e) <->
   (forall d, result <> PyDict d) \/
   (exists d, result = PyDict d /\
      let sum := dict_get d "summary" (PyStr "No summary provided") in
      ((forall n, py_len sum <> inr n) \/
       exists n, py_len sum = inr n /\ (500 < n)%nat /\ forall text, sum <> PyStr text))) /\
  (forall e, validate_classification_result cfg now result subject description = inl e ->
     (forall d, result <> PyDict d) -> e = AttributeError) /\
  (forall e d, validate_classification_result cfg now result subject description = inl e ->
     result = PyDict d ->
     (forall items, dict_get d "summary" (PyStr "No summary provided") <> PyDict items) ->
     e = TypeError).
Proof.
  unfold validate_classification_result.
  destruct result as [| | | | |l|d]; cbn [py_get bind];
    try (split; [split; [intros _; left; discriminate | intros _; now eexists]
                |split; [now intros e [= <-] | intros e d' _ Hd; discriminate Hd]]).
  cbv zeta. split; [split|split].
  - intros [e Hraise]. right. exists d. split; [reflexivity|]. revert Hraise.
    destruct (dict_get d "summary" (PyStr "No summary provided"))
      as [| | | |text|items|items]; cbn [py_len bind]; intros Hraise;
      try (left; discriminate).
    + destruct (500 <? String.length text)%nat; cbn in Hraise; discriminate Hraise.
    + destruct (500 <? length items)%nat eqn:Hlong; cbn in Hraise; [|discriminate Hraise].
      right. exists (length items). apply Nat.ltb_lt in Hlong.
      repeat split; [exact Hlong | discriminate].
    + destruct (500 <? length items)%nat eqn:Hlong; cbn in Hraise; [|discriminate Hraise].
      right. exists (length items). apply Nat.ltb_lt in Hlong.
      repeat split; [exact Hlong | discriminate].
  - intros [Hnot|(d' & [= <-] & Hsum)]; [now contradiction (Hnot d)|].
    revert Hsum.
    destruct (dict_get d "summary" (PyStr "No summary provided"))
      as [| | | |text|items|items]; cbn [py_len bind];
      intros [Hlen|(n & Hlen & Hlong & Hnottext)];
      try (now eexists);
      try (now contradiction (Hlen (String.length text)));
      try (now contradiction (Hlen (length items)));
      try (now contradiction (Hnottext text));
      injection Hlen as <-; apply Nat.ltb_lt in Hlong; rewrite Hlong; now eexists.
  - intros e _ Hnot. now contradiction (Hnot d).
  - intros e d' Hraise [= <-] Hnodict. revert Hraise Hnodict.
    destruct (dict_get d "summary" (PyStr "No summary provided"))
      as [| | | |text|items|items]; cbn [py_len bind]; intros Hraise Hnodict;
      try (now injection Hraise).
    + destruct (500 <? String.length text)%nat; cbn in Hraise; discriminate Hraise.
    + destruct (500 <? length items)%nat; cbn in Hraise; [now injection Hraise|].
      discriminate Hraise.
    + now contradiction (Hnodict items).
Qed.

(** A validated result has a valid category and carries the three tags. *)
Lemma validated_category_and_tags
    (cfg : config) (now : Z) (result : pyval) (subject description : string)
    (r : classification) :
  validate_classification_result cfg now result subject description = inr r ->
  In (category r) valid_categories /\
  method r = "ollama_ai" /\ model r = Some (ollama_model cfg) /\ timestamp r = Some now.
Proof.
  unfold validate_classification_result.
  destruct result as [| | | | |l|d]; cbn [py_get bind]; try discriminate.
  destruct (py_len _); cbn [bind]; [discriminate|].
  destruct (if (500 <? _)%nat then _ else _); cbn [bind]; [discriminate|].
  intros [= <-]. cbn [category method model timestamp].
  split; [|repeat split].
  destruct (in_valid_categories (dict_get d "category" (PyStr "general_inquiry"))) eqn:Hcat;
    cbn [negb]; [|cbn; tauto].
  destruct (dict_get d "category" (PyStr "general_inquiry")) as [| | | |c| |];
    try (cbn in Hcat; discriminate).
  unfold in_valid_categories in Hcat. cbn [category_text].
  apply existsb_exists in Hcat. destruct Hcat as (c' & Hin & Heq).
  apply String.eqb_eq in Heq. now subst c'.
Qed.

(** What a validated result can hold: a category of the valid set, a
    summary that, when text, has at most 500 characters, and a confidence
    that passes the range test again (a finite float lies in [0,1], an
    int is 0 or 1). *)
Theorem validated_result_is_clamped
    (cfg : config) (now : Z) (result : pyval) (subject description : string)
    (r : classification) :
  validate_classification_result cfg now result subject description = inr r ->
  In (category r) valid_categories /\
  (forall text, summary r = PyStr text -> (String.length text <= 500)%nat) /\
  is_int_or_float (confidence r) = true /\
  num_lt (confidence r) 0 = false /\
  num_gt (confidence r) 1 = false /\
  (forall q, confidence r = PyFloat (FFinite q) -> (0 <= q /\ q <= 1)%Q) /\
  (forall z, confidence r = PyInt z -> z = 0 \/ z = 1).
Proof.
  unfold validate_classification_result.
  destruct result as [| | | | |l|d]; cbn [py_get bind]; try discriminate.
  set (cat := dict_get d "category" (PyStr "general_inquiry")).
  remember (dict_get d "summary" (PyStr "No summary provided")) as sum eqn:Hsumdef.
  clear Hsumdef.
  set (conf := dict_get d "confidence" (PyFloat (FFinite 0.7))).
  destruct (py_len sum) as [e|n] eqn:Hlen; cbn [bind]; [discriminate|].
  destruct (if (500 <? n)%nat then truncate_summary sum else inr sum)
    as [e|sum'] eqn:Hsum'; cbn [bind]; [discriminate|].
  intros [= <-]. cbn [category summary confidence].
  assert (Hconf :
    let c := if negb (is_int_or_float conf) || num_lt conf 0 || num_gt conf 1
             then PyFloat (FFinite 0.7) else conf in
    is_int_or_float c = true /\ num_lt c 0 = false /\ num_gt c 1 = false).
  { cbv zeta.
    destruct (is_int_or_float conf) eqn:H1; cbn [negb orb]; [|repeat split].
    destruct (num_lt conf 0) eqn:H2; cbn [orb]; [repeat split|].
    destruct (num_gt conf 1) eqn:H3; [repeat split|]. now rewrite H1, H2, H3. }
  cbv zeta in Hconf. destruct Hconf as (Hnum & Hlt & Hgt).
  split; [|split; [|split; [exact Hnum | split; [exact Hlt | split; [exact Hgt | split]]]]].
  - destruct (in_valid_categories cat) eqn:Hcat; cbn [negb].
    + destruct cat as [| | | |c| |]; try (cbn in Hcat; discriminate).
      unfold in_valid_categories in Hcat. cbn [category_text].
      apply existsb_exists in Hcat. destruct Hcat as (c' & Hin & Heq).
      apply String.eqb_eq in Heq. now subst c'.
    + cbn. tauto.
  - intros text Htext. subst sum'.
    destruct (500 <? n)%nat eqn:Hlong.
    + destruct sum as [| | | |full|items|items]; cbn in Hsum'; try discriminate Hsum'.
      injection Hsum' as <-. rewrite length_append, length_str_take.
      change (String.length "...") with 3%nat. lia.
    + injection Hsum' as ->. cbn in Hlen. injection Hlen as <-.
      apply Nat.ltb_ge in Hlong. exact Hlong.
  - intros q Hq. rewrite Hq in Hlt, Hgt. cbn in Hlt, Hgt.
    apply negb_false_iff in Hlt, Hgt. apply Qle_bool_iff in Hlt, Hgt. split; assumption.
  - intros z Hz. rewrite Hz in Hlt, Hgt. cbn in Hlt, Hgt.
    apply Z.ltb_ge in Hlt, Hgt. lia.
Qed.

Lemma validated_result_is_clamped_witness :
  exists r,
    validate_classification_result default_config 1000 out_of_range_answer "s" "d" = inr r /\
    In (category r) valid_categories /\
    (forall text, summary r = PyStr text -> (String.length text <= 500)%nat) /\
    num_gt (confidence r) 1 = false.
Proof.
  eexists. split; [reflexivity|].
  destruct (validated_result_is_clamped default_config 1000 out_of_range_answer "s" "d" _ eq_refl)
    as (Hcat & Hsum & _ & _ & Hgt & _).
  split; [exact Hcat|]. split; [exact Hsum | exact Hgt].
Defined.

End ParsingProps.

(** ** The classifier as its callers see it *)

Module ClassifyProps.

Import Classifier Examples Scenarios.

Lemma check_ollama_health_true (svc : service) :
  check_ollama_health svc = true -> exists body, health svc = Responds 200 body.
Proof.
  unfold check_ollama_health. destruct (health svc) as [e|code body]; [discriminate|].
  intros H. apply Z.eqb_eq in H. subst code. now exists body.
Qed.

(** Where an answer of [classify_request] comes from: the fallback, or a
    validation that went through behind two 200 answers. *)
Lemma classify_request_origin
    (json_loads : string -> option pyval) (re_findall : string -> list string)
    (cfg : config) (svc : service) (subject description : string) (r : classification) :
  classify_request json_loads re_findall cfg svc subject description = inr r ->
  r = fallback_classify subject description \/
  (exists probe d parsed,
     health svc = Responds 200 probe /\
     generate svc = Responds 200 (Some (PyDict d)) /\
     validate_classification_result cfg (utcnow svc) parsed subject description = inr r).
Proof.
  rewrite ClassifierProps.classify_request_unfold. intros [= <-].
  destruct (check_ollama_health svc) eqn:Hhealth; [|now left].
  apply check_ollama_health_true in Hhealth. destruct Hhealth as [probe Hhealth].
  unfold remote_classify.
  destruct (generate svc) as [e|code body] eqn:Hgen; [now left|].
  destruct (code =? 200) eqn:Hcode; cbn [negb]; [|now left].
  apply Z.eqb_eq in Hcode. subst code.
  destruct body as [v|]; cbn [bind]; [|now left].
  destruct v as [| | | | | |d]; cbn [py_get bind]; try (now left).
  destruct (parse_ai_response json_loads re_findall (dict_get d "response" (PyStr "")))
    as [e|parsed]; cbn [bind]; [now left|].
  destruct (validate_classification_result cfg (utcnow svc) parsed subject description)
    as [e|validated] eqn:Hval; [now left|].
  right. exists probe, d, parsed. repeat split; [exact Hhealth | exact Hval].
Qed.

Lemma classify_request_valid_category
    (json_loads : string -> option pyval) (re_findall : string -> list string)
    (cfg : config) (svc : service) (subject description : string) (r : classification) :
  classify_request json_loads re_findall cfg svc subject description = inr r ->
  In (category r) valid_categories.
Proof.
  intros Hr. destruct (classify_request_origin _ _ _ _ _ _ _ Hr)
    as [->|(probe & d & parsed & _ & _ & Hval)].
  - apply FallbackProps.fallback_classify_valid.
  - now destruct (ParsingProps.validated_category_and_tags _ _ _ _ _ _ Hval).
Qed.

(** Every answer of [classify_request] has a category of the valid set
    and is tagged "fallback" or "ollama_ai"; it is tagged "ollama_ai" only
    when the health probe and the generate call both answered 200 and the
    body was a JSON object, and the fallback never answers "other". *)
Theorem classify_request_result_shape
    (json_loads : string -> option pyval) (re_findall : string -> list string)
    (cfg : config) (svc : service) (subject description : string) (r : classification) :
  classify_request json_loads re_findall cfg svc subject description = inr r ->
  In (category r) valid_categories /\
  (method r = "fallback" \/ method r = "ollama_ai") /\
  (method r = "fallback" -> r = fallback_classify subject description /\ category r <> "other") /\
  (method r = "ollama_ai" ->
     (exists probe, health svc = Responds 200 probe) /\
     (exists d, generate svc = Responds 200 (Some (PyDict d))) /\
     model r = Some (ollama_model cfg) /\ timestamp r = Some (utcnow svc)).
Proof.
  intros Hr. split; [now apply classify_request_valid_category in Hr|].
  destruct (classify_request_origin _ _ _ _ _ _ _ Hr)
    as [->|(probe & d & parsed & Hhealth & Hgen & Hval)].
  - destruct (FallbackProps.fallback_classify_valid subject description)
      as (_ & Hother & Hm).
    split; [now left|]. split; [intros _; split; [reflexivity | exact Hother]|].
    rewrite Hm. discriminate.
  - destruct (ParsingProps.validated_category_and_tags _ _ _ _ _ _ Hval)
      as (_ & Hm & Hmodel & Hts).
    split; [now right|]. split; [rewrite Hm; discriminate|].
    intros _. split; [now exists probe|]. split; [now exists d|]. split; assumption.
Qed.

Lemma classify_request_result_shape_witness :
  exists r,
    classify_request no_json no_matches default_config
      (ollama_answers (Some (PyDict [("response", PyStr "Sure!")]))) "s" "d" = inr r /\
    In (category r) valid_categories /\
    (method r = "fallback" \/ method r = "ollama_ai").
Proof.
  eexists. split; [reflexivity|].
  destruct (classify_request_result_shape no_json no_matches default_config
              (ollama_answers (Some (PyDict [("response", PyStr "Sure!")]))) "s" "d" _ eq_refl)
    as (Hcat & Hm & _).
  split; assumption.
Defined.

(** A well-formed body whose model text does not decode, as a whole or
    in any regex match, is not sent to the keyword fallback: the answer is
    the parse default after validation, general_inquiry with confidence
    0.3 under method "ollama_ai", whatever the subject and description
    say. *)
Theorem unparsable_answer_gets_parse_default
    (json_loads : string -> option pyval) (re_findall : string -> list string)
    (cfg : config) (svc : service) (subject description : string)
    (probe : unit) (d : list (string * pyval)) (text : string) :
  health svc = Responds 200 probe ->
  generate svc = Responds 200 (Some (PyDict d)) ->
  dict_get d "response" (PyStr "") = PyStr text ->
  json_loads (strip text) = None ->
  Forall (fun m => json_loads m = None) (re_findall text) ->
  classify_request json_loads re_findall cfg svc subject description =
    inr {| category := "general_inquiry";
           summary := PyStr "AI parsing failed - manual review needed";
           confidence := PyFloat (FFinite 0.3);
           method := "ollama_ai";
           model := Some (ollama_model cfg);
           timestamp := Some (utcnow svc) |}.
Proof.
  intros Hhealth Hgen Hresp Hwhole Hmatches.
  rewrite ClassifierProps.classify_request_unfold.
  unfold check_ollama_health, remote_classify. rewrite Hhealth, Hgen.
  cbn [Z.eqb Pos.eqb negb bind py_get]. rewrite Hresp.
  unfold parse_ai_response. rewrite Hwhole.
  now rewrite (ParsingProps.first_decoded_none json_loads _ Hmatches).
Qed.

Lemma unparsable_answer_gets_parse_default_witness :
  classify_request no_json no_matches default_config
    (ollama_answers (Some (PyDict [("response", PyStr "I want a refund, cancel it")])))
    "Cancel my subscription" "stop billing me" =
    inr {| category := "general_inquiry";
           summary := PyStr "AI parsing failed - manual review needed";
           confidence := PyFloat (FFinite 0.3);
           method := "ollama_ai";
           model := Some "llama3.1:8b";
           timestamp := Some 1014 |}.
Proof.
  apply (unparsable_answer_gets_parse_default no_json no_matches default_config
           (ollama_answers (Some (PyDict [("response", PyStr "I want a refund, cancel it")])))
           "Cancel my subscription" "stop billing me" tt
           [("response", PyStr "I want a refund, cancel it")] "I want a refund, cancel it");
    try reflexivity.
  constructor.
Defined.

(** [POST /api/classify] never answers 500: the classifier does not
    raise, so the endpoint's error branch is dead and the answer is the
    classification under "success". *)
Theorem test_ai_classification_never_fails
    (json_loads : string -> option pyval) (re_findall : string -> list string)
    (cfg : config) (svc : service) (now : Z) (subject description : string) :
  exists result,
    Main.test_ai_classification json_loads re_findall cfg svc now subject description
      = Main.ClassifySuccess result now /\
    classify_request json_loads re_findall cfg svc subject description = inr result /\
    In (category result) valid_categories.
Proof.
  destruct (ClassifierProps.classify_request_returns json_loads re_findall cfg svc
              subject description) as [result Hresult].
  exists result. unfold Main.test_ai_classification. rewrite Hresult.
  split; [reflexivity|]. split; [reflexivity|].
  exact (classify_request_valid_category _ _ _ _ _ _ _ Hresult).
Qed.

End ClassifyProps.

(** ** The notification dispatcher *)

Module NotifierProps.

Import TeamsNotifier Examples StringFacts.

Lemma unconfigured_iff (url : option string) :
  unconfigured url = true <->
  url = None \/ url = Some "" \/ url = Some placeholder_url.
Proof.
  unfold unconfigured. destruct url as [u|].
  - rewrite orb_true_iff, !String.eqb_eq. split.
    + intros [->| ->]; [right; left | right; right]; reflexivity.
    + intros [H|[[= ->]|[= ->]]]; [discriminate | now left | now right].
  - split; [now left | reflexivity].
Qed.

(** With the webhook URL unset, empty or left at the placeholder, the
    dispatcher posts nothing, returns none and leaves the world alone,
    whatever the webhook would have answered. *)
Theorem alert_skipped_when_unconfigured
    (url : option string) (webhook : http_result string) (now request_id : Z)
    (r : SupportRequest) (w : world) :
  url = None \/ url = Some "" \/ url = Some "https://your-teams-webhook-url-here" ->
  send_cancellation_alert url webhook now request_id r w = (None, w) /\
  send_notification url webhook now request_id r w = (false, w).
Proof.
  intros Hurl. apply unconfigured_iff in Hurl.
  unfold send_notification, send_cancellation_alert. now rewrite Hurl.
Qed.

Lemma alert_skipped_when_unconfigured_witness :
  send_cancellation_alert (Some "") (Responds 200 "1") 3000 7 completed_row
    (world_with 7 completed_row) = (None, world_with 7 completed_row) /\
  send_notification (Some "") (Responds 200 "1") 3000 7 completed_row
    (world_with 7 completed_row) = (false, world_with 7 completed_row).
Proof.
  apply (alert_skipped_when_unconfigured (Some "") (Responds 200 "1") 3000 7 completed_row
           (world_with 7 completed_row)).
  right. left. reflexivity.
Defined.

(** The dispatcher never touches the store and posts at most one card,
    exactly one when the webhook is configured.  It returns a delivery id
    exactly when it is configured and the webhook answers 200: any other
    status (201 and 204 included) and any transport error give none.  The
    bool wrapper is true exactly when a delivery id comes back. *)
Theorem alert_delivery_iff_200
    (url : option string) (webhook : http_result string) (now request_id : Z)
    (r : SupportRequest) (w : world) :
  let result := fst (send_cancellation_alert url webhook now request_id r w) in
  let w' := snd (send_cancellation_alert url webhook now request_id r w) in
  store w' = store w /\
  effects w' = (effects w ++
                if unconfigured url then [] else [Posted (build_card request_id r)])%list /\
  (result = Some (request_id, now) <->
     unconfigured url = false /\ exists body, webhook = Responds 200 body) /\
  (result = None <->
     unconfigured url = true \/ (exists e, webhook = Raises e) \/
     (exists code body, webhook = Responds code body /\ code <> 200)) /\
  (fst (send_notification url webhook now request_id r w) = true <->
     result = Some (request_id, now)).
Proof.
  unfold send_notification, send_cancellation_alert.
  destruct (unconfigured url); cbn [fst snd store effects].
  - split; [reflexivity|]. split; [now rewrite app_nil_r|].
    split; [split; [discriminate | intros [H _]; discriminate H]|].
    split; [split; [now left | reflexivity]|].
    split; discriminate.
  - destruct webhook as [e|code body]; cbn [fst snd store effects].
    + split; [reflexivity|]. split; [reflexivity|].
      split; [split; [discriminate | intros [_ [b H]]; discriminate H]|].
      split; [split; [intros _; right; left; now exists e | reflexivity]|].
      split; discriminate.
    + destruct (code =? 200) eqn:Hcode; cbn [fst snd store effects].
      * apply Z.eqb_eq in Hcode. subst code.
        split; [reflexivity|]. split; [reflexivity|].
        split; [split; [intros _; split; [reflexivity | now exists body] | reflexivity]|].
        split; [|split; reflexivity].
        split; [discriminate|].
        intros [H|[[e H]|(c & b & [= <- _] & Hne)]];
          [discriminate H | discriminate H | now contradiction Hne].
      * apply Z.eqb_neq in Hcode.
        split; [reflexivity|]. split; [reflexivity|].
        split; [split; [discriminate | intros [_ [b [= H _]]]; now contradiction Hcode]|].
        split; [split; [intros _; right; right; now exists code, body | reflexivity]|].
        split; discriminate.
Qed.

Lemma str_take_all (n : nat) (s : string) :
  (String.length s <= n)%nat -> str_take n s = s.
Proof.
  unfold str_take. revert n.
  induction s as [|c s IH]; intros [|n] Hlen; simpl in *; try reflexivity; [lia|].
  rewrite IH; [reflexivity | lia].
Qed.

Lemma append_empty (s : string) : s ++ "" = s.
Proof.
  induction s as [|c s IH]; [reflexivity|].
  change (String c s ++ "") with (String c (s ++ "")). now rewrite IH.
Qed.

(** The card's description excerpt: the description itself up to 500
    characters, its first 500 characters followed by "..." beyond, so
    never more than 503 characters.  The category shown is "Not
    classified" for a row without category (or with an empty one). *)
Theorem card_excerpt_is_bounded (request_id : Z) (r : SupportRequest) :
  let card := build_card request_id r in
  (String.length (card_text card) <= 503)%nat /\
  ((String.length (description r) <= 500)%nat -> card_text card = description r) /\
  ((500 < String.length (description r))%nat ->
     card_text card = str_take 500 (description r) ++ "..." /\
     String.length (card_text card) = 503%nat) /\
  String.prefix (str_take 500 (description r)) (description r) = true /\
  (Models.category r = None \/ Models.category r = Some "" -> card_category card = "Not classified") /\
  (forall c, Models.category r = Some c -> c <> "" -> card_category card = c) /\
  card_request_id card = request_id /\ card_subject card = subject r.
Proof.
  cbv zeta. unfold build_card. cbn [card_text card_category card_request_id card_subject].
  destruct (500 <? String.length (description r))%nat eqn:Hlong; cbv iota.
  - apply Nat.ltb_lt in Hlong.
    assert (Hlen : String.length (str_take 500 (description r) ++ "...") = 503%nat).
    { rewrite length_append, length_str_take. change (String.length "...") with 3%nat. lia. }
    split; [lia|]. split; [lia|]. split; [intros _; split; [reflexivity | exact Hlen]|].
    split; [apply str_take_prefix|].
    split; [intros [->| ->]; reflexivity|].
    split; [|split; reflexivity].
    intros c -> Hc. apply String.eqb_neq in Hc. now rewrite Hc.
  - apply Nat.ltb_ge in Hlong.
    pose proof (str_take_prefix 500 (description r)) as Hprefix.
    rewrite append_empty. rewrite (str_take_all _ _ Hlong) in Hprefix |- *.
    split; [lia|]. split; [reflexivity|]. split; [lia|].
    split; [exact Hprefix|].
    split; [intros [->| ->]; reflexivity|].
    split; [|split; reflexivity].
    intros c -> Hc. apply String.eqb_neq in Hc. now rewrite Hc.
Qed.

End NotifierProps.

(** ** Runs of the notification task *)

Module NotificationProps.

Import Tasks Examples.

(** For a request id absent from the store the notification task raises
    the not-found [ValueError] (its [except] clause only re-raises) and
    leaves the world as it was; the queue retries the delivery after 30
    seconds while its retry count is below 3, then fails it. *)
Theorem notify_absent_request
    (env : notification_env) (request_id : Z) (w : world) (retries : nat) :
  store w !! request_id = None ->
  exists e,
    send_teams_notification env request_id w = (inl e, w) /\
    (notify_query_fails env = false -> e = ValueError request_id) /\
    deliver send_teams_notification_options retries
      (fst (send_teams_notification env request_id w)) =
      if (retries <? 3)%nat then Retry e 30 else Failure e.
Proof.
  intros Hrow. unfold send_teams_notification.
  destruct (notify_query_fails env).
  - exists OperationalError. split; [reflexivity|]. split; [discriminate | reflexivity].
  - rewrite Hrow. exists (ValueError request_id).
    split; [reflexivity|]. split; reflexivity.
Qed.

Lemma notify_absent_request_witness :
  exists e,
    send_teams_notification (webhook_answers 200 3000 3001) 7 empty_world
      = (inl e, empty_world) /\
    e = ValueError 7 /\
    deliver send_teams_notification_options 3
      (fst (send_teams_notification (webhook_answers 200 3000 3001) 7 empty_world)) =
      Failure e.
Proof.
  destruct (notify_absent_request (webhook_answers 200 3000 3001) 7 empty_world 3)
    as (e & Hrun & He & Hdeliver); [reflexivity|].
  exists e. split; [exact Hrun|]. split; [now apply He | exact Hdeliver].
Defined.

Lemma alert_effects
    (url : option string) (webhook : http_result string) (now request_id : Z)
    (r : SupportRequest) (w : world) :
  exists posts,
    snd (TeamsNotifier.send_cancellation_alert url webhook now request_id r w) =
      {| store := store w; effects := (effects w ++ posts)%list |} /\
    (posts = [] \/ posts = [Posted (TeamsNotifier.build_card request_id r)]).
Proof.
  unfold TeamsNotifier.send_cancellation_alert.
  destruct (TeamsNotifier.unconfigured url).
  - exists []. rewrite app_nil_r. destruct w. split; [reflexivity | now left].
  - exists [Posted (TeamsNotifier.build_card request_id r)].
    split; [|now right].
    destruct webhook as [e|code body]; [reflexivity|]. now destruct (code =? 200).
Qed.

(** Closes the frame clauses for a world that did not change. *)
Ltac untouched :=
  let r := fresh "r" in
  let Hr := fresh "Hr" in
  cbn [snd];
  split; [reflexivity|]; split; [intros; congruence|];
  split; [intros r Hr; exists r; split; [congruence|]; repeat split; now left|];
  split; [lia | reflexivity].

(** A run of the notification task touches no row but its own, creates
    and deletes none, changes nothing in its row except notification_sent
    (to "true") and updated_at, makes at most one webhook call and
    enqueues nothing. *)
Theorem notify_run_frame (env : notification_env) (request_id : Z) (w : world) :
  let w' := snd (send_teams_notification env request_id w) in
  (forall other, other <> request_id -> store w' !! other = store w !! other) /\
  (store w !! request_id = None -> store w' !! request_id = None) /\
  (forall r, store w !! request_id = Some r ->
     exists r',
       store w' !! request_id = Some r' /\
       customer_name r' = customer_name r /\ email r' = email r /\
       subject r' = subject r /\ description r' = description r /\
       category r' = category r /\ ai_summary r' = ai_summary r /\
       processing_status r' = processing_status r /\
       created_at r' = created_at r /\ processed_at r' = processed_at r /\
       (notification_sent r' = notification_sent r \/ notification_sent r' = "true")) /\
  (length (webhook_calls w') <= length (webhook_calls w) + 1)%nat /\
  enqueued w' = enqueued w.
Proof.
  cbv zeta. unfold send_teams_notification.
  destruct (notify_query_fails env); [untouched|].
  destruct (store w !! request_id) as [request|] eqn:Hrow; [|untouched].
  destruct (String.eqb (notification_sent request) "true"); [untouched|].
  destruct (alert_effects (webhook_url env) (webhook env) (sent_now env) request_id request w)
    as (posts & Hw1 & Hposts).
  destruct (TeamsNotifier.send_cancellation_alert _ _ _ _ _ _) as [nid w1].
  cbn [snd] in Hw1. subst w1.
  assert (Hcalls : (length (List.filter is_post (effects w ++ posts)) <=
                    length (List.filter is_post (effects w)) + 1)%nat).
  { rewrite List.filter_app, length_app. destruct Hposts as [-> | ->]; cbn; lia. }
  assert (Henq : List.filter is_enqueue (effects w ++ posts) = List.filter is_enqueue (effects w)).
  { rewrite List.filter_app. destruct Hposts as [-> | ->]; cbn; now rewrite app_nil_r. }
  destruct (commit_sent env) as [t|]; cbn [commit snd store effects].
  - split; [intros other Hother; now apply lookup_insert_ne|].
    split; [discriminate|].
    split.
    + intros r [= <-]. eexists. split; [apply lookup_insert_eq|]. repeat split. now right.
    + unfold webhook_calls, enqueued. cbn [effects].
      rewrite !List.filter_app. cbn [List.filter is_post is_enqueue]. rewrite !app_nil_r.
      rewrite <- !List.filter_app. split; [exact Hcalls | exact Henq].
  - split; [reflexivity|]. split; [discriminate|].
    split; [intros r [= <-]; exists request;
            split; [first [exact Hrow | reflexivity]|]; repeat split; now left|].
    unfold webhook_calls, enqueued. cbn [effects]. split; [exact Hcalls | exact Henq].
Qed.

(** One run makes at most one webhook call. *)
Lemma notify_run_webhook_calls (env : notification_env) (request_id : Z) (w : world) :
  (length (webhook_calls (snd (send_teams_notification env request_id w)))
     <= length (webhook_calls w) + 1)%nat.
Proof.
  unfold send_teams_notification.
  destruct (notify_query_fails env); [cbn [snd]; lia|].
  destruct (store w !! request_id) as [request|]; [|cbn [snd]; lia].
  destruct (String.eqb (notification_sent request) "true"); [cbn [snd]; lia|].
  destruct (alert_effects (webhook_url env) (webhook env) (sent_now env) request_id request w)
    as (posts & Hw1 & Hposts).
  destruct (TeamsNotifier.send_cancellation_alert _ _ _ _ _ _) as [nid w1].
  cbn [snd] in Hw1. subst w1.
  destruct (commit_sent env) as [t|]; cbn [commit snd store effects];
    unfold webhook_calls; cbn [effects];
    rewrite !List.filter_app, !length_app;
    destruct Hposts as [-> | ->]; cbn; lia.
Qed.

Lemma notify_repeatedly_sent
    (envs : list notification_env) (request_id : Z) (w : world) (request : SupportRequest) :
  store w !! request_id = Some request ->
  notification_sent request = "true" ->
  notify_repeatedly envs request_id w = w.
Proof.
  intros Hrow Hsent. induction envs as [|env envs IH]; simpl; [reflexivity|].
  destruct (GuardProps.notify_sent_once env request_id w request Hrow Hsent) as [-> _].
  exact IH.
Qed.

(** Once a run of the notification task has committed, the request is
    settled: every later delivery for the id is a no-op, so the whole
    sequence of deliveries makes at most one webhook call. *)
Theorem notify_settles_after_commit
    (env : notification_env) (envs : list notification_env) (request_id : Z) (w : world)
    (request : SupportRequest) (t : Z) :
  notify_query_fails env = false ->
  store w !! request_id = Some request ->
  commit_sent env = CommitOk t ->
  let w1 := snd (send_teams_notification env request_id w) in
  (exists row, store w1 !! request_id = Some row /\ notification_sent row = "true") /\
  notify_repeatedly envs request_id w1 = w1 /\
  notify_repeatedly (env :: envs) request_id w = w1 /\
  (length (webhook_calls (notify_repeatedly (env :: envs) request_id w))
     <= length (webhook_calls w) + 1)%nat.
Proof.
  intros Hq Hrow Hc w1.
  assert (Hsettled : exists row, store w1 !! request_id = Some row /\
                                 notification_sent row = "true").
  { destruct (String.eqb (notification_sent request) "true") eqn:Hsent.
    - apply String.eqb_eq in Hsent.
      destruct (GuardProps.notify_sent_once env request_id w request Hrow Hsent) as [Hw _].
      exists request. subst w1. rewrite Hw. split; assumption.
    - apply String.eqb_neq in Hsent. eexists. split.
      + apply (FailureProps.notification_marked_sent_whatever_the_delivery
                 env request_id w request t Hq Hrow Hsent Hc).
      + reflexivity. }
  destruct Hsettled as (row & Hrow1 & Hsent1).
  assert (Hrest : notify_repeatedly envs request_id w1 = w1)
    by exact (notify_repeatedly_sent envs request_id w1 row Hrow1 Hsent1).
  split; [now exists row|]. split; [exact Hrest|].
  cbn [notify_repeatedly]. fold w1. rewrite Hrest. split; [reflexivity|].
  apply notify_run_webhook_calls.
Qed.

Lemma notify_settles_after_commit_witness :
  let w1 := snd (send_teams_notification (webhook_answers 200 3000 3001) 7
                   (world_with 7 completed_row)) in
  notify_repeatedly [webhook_answers 200 3100 3101; webhook_answers 500 3200 3201] 7 w1 = w1 /\
  length (webhook_calls w1) = 1%nat.
Proof.
  destruct (notify_settles_after_commit (webhook_answers 200 3000 3001)
              [webhook_answers 200 3100 3101; webhook_answers 500 3200 3201]
              7 (world_with 7 completed_row) completed_row 3001)
    as (_ & Hrest & _ & _).
  - reflexivity.
  - apply lookup_singleton_eq.
  - reflexivity.
  - split; [exact Hrest | reflexivity].
Defined.

End NotificationProps.

(** ** Runs of the processing task *)

Module ProcessingRunProps.

Import Tasks Examples.

(** Splits a goal about one run of [process_support_request] along the
    run's control flow, one goal for each way through the function. *)
Ltac run_paths json_loads re_findall env request_id w :=
  unfold process_support_request, process_try;
  destruct (query_fails env) eqn:?Hquery;
  [| destruct (store w !! request_id) as [?request|] eqn:?Hrow;
     [ destruct (String.eqb (processing_status request) "completed") eqn:?Hdone;
       [| destruct (commit_processing env) as [?t1|] eqn:?Hc1; cbn [commit];
          [ destruct (Classifier.classify_request json_loads re_findall
                        (classifier_config env) (ollama env) _ _) as [?e|?ai] eqn:?Hai;
            [| destruct (commit_completed env) as [?t2|] eqn:?Hc2; cbn [commit];
               [ destruct (String.eqb (Classifier.category ai) "cancellation_request")
                   eqn:?Hcat;
                 [ destruct (delay_fails env) eqn:?Hdelay |] |] ] |] ] |] ];
  try (destruct (commit_failed env) as [?t3|] eqn:?Hc3; cbn [commit]);
  cbn [fst snd store effects].

Ltac lookups :=
  repeat first [ rewrite lookup_insert_eq | rewrite lookup_insert_ne by assumption ].

(** A run of the processing task touches no row but its own, creates and
    deletes none, never changes the customer's input, created_at or
    notification_sent in its row, and makes no webhook call. *)
Theorem process_run_frame
    (json_loads : string -> option pyval) (re_findall : string -> list string)
    (env : processing_env) (request_id : Z) (w : world) :
  let w' := snd (process_support_request json_loads re_findall env request_id w) in
  (forall other, other <> request_id -> store w' !! other = store w !! other) /\
  (store w !! request_id = None -> store w' !! request_id = None) /\
  (forall r, store w !! request_id = Some r ->
     exists r',
       store w' !! request_id = Some r' /\
       customer_name r' = customer_name r /\ email r' = email r /\
       subject r' = subject r /\ description r' = description r /\
       created_at r' = created_at r /\
       notification_sent r' = notification_sent r).
Proof.
  cbv zeta.
  run_paths json_loads re_findall env request_id w;
    (split; [intros other Hother; apply not_eq_sym in Hother; now lookups|]);
    (split; [intros; congruence|]);
    intros r Hr;
    first [ discriminate Hr
          | exists r; split; [exact Hr | repeat split]; fail
          | injection Hr as <-; eexists;
            split; [lookups; first [reflexivity | eassumption]|]; repeat split ].
Qed.

(** The classifier does not raise, so that path of a run is dead. *)
Ltac no_classifier_error :=
  match goal with
  | H : Classifier.classify_request ?jl ?rf ?cfg ?svc ?s ?d = inl _ |- _ =>
      let r := fresh "r" in
      let Hr := fresh "Hr" in
      destruct (ClassifierProps.classify_request_returns jl rf cfg svc s d) as [r Hr];
      congruence
  end.

(** What a run that returns a result dict has left in the store. *)
Lemma process_success_row
    (json_loads : string -> option pyval) (re_findall : string -> list string)
    (env : processing_env) (request_id : Z) (w : world) (res : processing_result) :
  fst (process_support_request json_loads re_findall env request_id w) = inr (Some res) ->
  result_request_id res = request_id /\
  exists row,
    store (snd (process_support_request json_loads re_findall env request_id w)) !! request_id
      = Some row /\
    processing_status row = "completed" /\
    category row = Some (result_category res) /\
    ai_summary row = Some (result_summary res) /\
    processed_at row = Some (processed_now env).
Proof.
  run_paths json_loads re_findall env request_id w;
    intros Hres; try discriminate Hres;
    injection Hres as <-; (split; [reflexivity|]);
    eexists; (split; [lookups; reflexivity|]); repeat split.
Qed.

(** A run that returns its result dict has left the row completed with
    the returned category and summary and with processed_at set, and it
    settles the request: any later run for the id changes nothing and,
    when its lookup goes through, returns at once. *)
Theorem process_success_then_noop
    (json_loads : string -> option pyval) (re_findall : string -> list string)
    (env later : processing_env) (request_id : Z) (w : world) (res : processing_result) :
  fst (process_support_request json_loads re_findall env request_id w) = inr (Some res) ->
  let w1 := snd (process_support_request json_loads re_findall env request_id w) in
  result_request_id res = request_id /\
  (exists row,
     store w1 !! request_id = Some row /\
     processing_status row = "completed" /\
     category row = Some (result_category res) /\
     ai_summary row = Some (result_summary res) /\
     processed_at row = Some (processed_now env)) /\
  snd (process_support_request json_loads re_findall later request_id w1) = w1 /\
  (query_fails later = false ->
     process_support_request json_loads re_findall later request_id w1 = (inr None, w1)).
Proof.
  intros Hres w1.
  destruct (process_success_row json_loads re_findall env request_id w res Hres)
    as (Hid & row & Hrow & Hstatus & Hrest).
  fold w1 in Hrow.
  split; [exact Hid|]. split; [exists row; split; [exact Hrow|]; split; [exact Hstatus | exact Hrest]|].
  exact (GuardProps.process_completed_once json_loads re_findall later request_id w1 row
           Hrow Hstatus).
Qed.

Lemma process_success_then_noop_witness :
  let w1 := snd (process_support_request no_json no_matches
                   (quiet_run 1010 1015 1020 1030) 7 (world_with 7 cancel_row)) in
  snd (process_support_request no_json no_matches (quiet_run 1110 1115 1120 1130) 7 w1) = w1 /\
  exists row,
    store w1 !! 7 = Some row /\ processing_status row = "completed" /\
    processed_at row = Some 1015.
Proof.
  destruct (process_success_then_noop no_json no_matches
              (quiet_run 1010 1015 1020 1030) (quiet_run 1110 1115 1120 1130)
              7 (world_with 7 cancel_row)
              {| result_request_id := 7;
                 result_category := "cancellation_request";
                 result_summary :=
                   PyStr "Fallback classification: cancellation_request (keyword: cancel)" |})
    as (_ & (row & Hrow & Hstatus & _ & _ & Hat) & Hnoop & _).
  - vm_compute. reflexivity.
  - split; [exact Hnoop|]. exists row. split; [exact Hrow|]. split; [exact Hstatus | exact Hat].
Defined.

(** On an existing row with a readable store, the only error a run can
    raise is a store or broker error (the classifier contributes none),
    whether or not the [except] clause manages to commit; and when that
    commit goes through, it is the run's last write and it leaves the row
    with status "failed", whatever had been written before. *)
Theorem process_failure_is_recorded
    (json_loads : string -> option pyval) (re_findall : string -> list string)
    (env : processing_env) (request_id : Z) (w : world) (r : SupportRequest) (e : exn) :
  query_fails env = false ->
  store w !! request_id = Some r ->
  fst (process_support_request json_loads re_findall env request_id w) = inl e ->
  e = OperationalError /\
  (forall t, commit_failed env = CommitOk t ->
     exists row before,
       store (snd (process_support_request json_loads re_findall env request_id w)) !! request_id
         = Some row /\
       processing_status row = "failed" /\
       updated_at row = t /\
       effects (snd (process_support_request json_loads re_findall env request_id w))
         = (before ++ [Committed request_id row])%list).
Proof.
  intros Hq Hr. revert Hq Hr.
  run_paths json_loads re_findall env request_id w;
    intros Hq Hr Hraised;
    try discriminate; try no_classifier_error;
    injection Hraised as <-;
    (split; [reflexivity|]);
    intros t Hc; first [discriminate Hc | injection Hc as <-];
    eexists; eexists; (split; [lookups; reflexivity|]);
    (split; [reflexivity|]); (split; [reflexivity|]); reflexivity.
Qed.

Lemma process_failure_is_recorded_witness :
  exists row before,
    store (snd (process_support_request no_json no_matches
                  (broker_down_run 1010 1015 1020 1030) 7 (world_with 7 cancel_row))) !! 7
      = Some row /\
    processing_status row = "failed" /\
    updated_at row = 1030 /\
    effects (snd (process_support_request no_json no_matches
                    (broker_down_run 1010 1015 1020 1030) 7 (world_with 7 cancel_row)))
      = (before ++ [Committed 7 row])%list.
Proof.
  destruct (process_failure_is_recorded no_json no_matches
              (broker_down_run 1010 1015 1020 1030) 7 (world_with 7 cancel_row) cancel_row
              OperationalError) as (_ & Hrow).
  - reflexivity.
  - apply lookup_singleton_eq.
  - vm_compute. reflexivity.
  - exact (Hrow 1030 eq_refl).
Defined.

End ProcessingRunProps.

(** ** Table creation at start-up *)

Module DatabaseProps.

Import Database Scenarios.

(** [create_tables] makes at most five attempts and stops at the first
    that goes through.  Before attempt k+1 it has slept 2, 4, ... , 2^k
    seconds, never after the last attempt, so at most 30 seconds in all.
    It returns exactly when one of the five attempts goes through, and
    raises the fifth attempt's exception when all five fail. *)
Theorem create_tables_retries (connect : nat -> option exn) :
  let result := fst (create_tables connect) in
  let slept := snd (create_tables connect) in
  (exists k, (k <= 4)%nat /\ slept = firstn k [2; 4; 8; 16]) /\
  fold_right Z.add 0 slept <= 30 /\
  (result = inr tt <-> exists k, (k < 5)%nat /\ connect k = None) /\
  (result = inr tt ->
     connect (length slept) = None /\
     forall k, (k < length slept)%nat -> connect k <> None) /\
  (forall e, result = inl e <->
     connect 4%nat = Some e /\ forall k, (k < 5)%nat -> connect k <> None).
Proof.
  cbv zeta. unfold create_tables, max_retries. cbn [seq create_tables_loop Nat.sub Nat.ltb Nat.leb].
  destruct (connect 0%nat) as [e0|] eqn:H0; cbn [fst snd app].
  2: { split; [exists 0%nat; split; [lia | reflexivity]|]. split; [cbn; lia|].
       split; [split; [intros _; exists 0%nat; split; [lia | exact H0] | reflexivity]|].
       split; [intros _; split; [exact H0 | cbn; intros k Hk; lia]|].
       intros e. split; [discriminate|]. intros [_ Hall]. now contradiction (Hall 0%nat ltac:(lia)). }
  destruct (connect 1%nat) as [e1|] eqn:H1; cbn [fst snd app].
  2: { split; [exists 1%nat; split; [lia | reflexivity]|]. split; [cbn; lia|].
       split; [split; [intros _; exists 1%nat; split; [lia | exact H1] | reflexivity]|].
       split; [intros _; split; [exact H1 |
                 cbn; intros k Hk; assert (k = 0%nat) as -> by lia; congruence]|].
       intros e. split; [discriminate|]. intros [_ Hall]. now contradiction (Hall 1%nat ltac:(lia)). }
  destruct (connect 2%nat) as [e2|] eqn:H2; cbn [fst snd app].
  2: { split; [exists 2%nat; split; [lia | reflexivity]|]. split; [cbn; lia|].
       split; [split; [intros _; exists 2%nat; split; [lia | exact H2] | reflexivity]|].
       split; [intros _; split; [exact H2 |
                 cbn; intros k Hk;
                 assert (k = 0 \/ k = 1)%nat as [-> | ->] by lia; congruence]|].
       intros e. split; [discriminate|]. intros [_ Hall]. now contradiction (Hall 2%nat ltac:(lia)). }
  destruct (connect 3%nat) as [e3|] eqn:H3; cbn [fst snd app].
  2: { split; [exists 3%nat; split; [lia | reflexivity]|]. split; [cbn; lia|].
       split; [split; [intros _; exists 3%nat; split; [lia | exact H3] | reflexivity]|].
       split; [intros _; split; [exact H3 |
                 cbn; intros k Hk;
                 assert (k = 0 \/ k = 1 \/ k = 2)%nat as [-> | [-> | ->]] by lia; congruence]|].
       intros e. split; [discriminate|]. intros [_ Hall]. now contradiction (Hall 3%nat ltac:(lia)). }
  destruct (connect 4%nat) as [e4|] eqn:H4; cbn [fst snd app].
  2: { split; [exists 4%nat; split; [lia | reflexivity]|]. split; [cbn; lia|].
       split; [split; [intros _; exists 4%nat; split; [lia | exact H4] | reflexivity]|].
       split; [intros _; split; [exact H4 |
                 cbn; intros k Hk;
                 assert (k = 0 \/ k = 1 \/ k = 2 \/ k = 3)%nat as [-> | [-> | [-> | ->]]] by lia;
                 congruence]|].
       intros e. split; [discriminate|]. intros [_ Hall]. now contradiction (Hall 4%nat ltac:(lia)). }
  split; [exists 4%nat; split; [lia | reflexivity]|]. split; [cbn; lia|].
  split.
  { split; [discriminate|]. intros (k & Hk & Hnone).
    assert (k = 0 \/ k = 1 \/ k = 2 \/ k = 3 \/ k = 4)%nat
      as [-> | [-> | [-> | [-> | ->]]]] by lia; congruence. }
  split; [discriminate|].
  intros e. split.
  - intros [= <-]. split; [reflexivity|]. intros k Hk.
    assert (k = 0 \/ k = 1 \/ k = 2 \/ k = 3 \/ k = 4)%nat
      as [-> | [-> | [-> | [-> | ->]]]] by lia; congruence.
  - intros [[= <-] _]. reflexivity.
Qed.

End DatabaseProps.

(** ** The web layer *)

Module MainProps.

Import Main Tasks Examples Scenarios.

(** Creating a request: when the commit fails nothing is stored or
    enqueued and the answer is a 500.  When it goes through, the new row
    sits under its id with status "pending", notification_sent "false"
    and no category, summary or processed_at, no other row is touched,
    and a read of the id returns the row.  The processing task is enqueued
    for the id, after the commit, exactly when the endpoint answers with
    the row; when the refresh or the enqueue raises, the answer is a 500
    although the row is stored and stays without a task. *)
Theorem create_support_request_outcomes
    (env : create_env) (data : SupportRequestCreate) (w : web_world) :
  let answer := fst (create_support_request env data w) in
  let w' := snd (create_support_request env data w) in
  (insert env = None ->
     w' = w /\ answer = HTTPException 500 "Failed to create support request") /\
  (forall new_id t_created t_updated,
     insert env = Some (new_id, t_created, t_updated) ->
     exists row,
       rows w' = <[new_id := row]> (rows w) /\
       get_support_request new_id w' = Answer row /\
       (forall other, other <> new_id ->
          get_support_request other w' = get_support_request other w) /\
       customer_name row = new_customer_name data /\ email row = new_email data /\
       subject row = new_subject data /\ description row = new_description data /\
       processing_status row = "pending" /\ notification_sent row = "false" /\
       category row = None /\ ai_summary row = None /\ processed_at row = None /\
       created_at row = t_created /\ updated_at row = t_updated /\
       (refresh_fails env = false /\ enqueue_fails env = false ->
          answer = Answer (new_id, row) /\
          processing_queue w' = (processing_queue w ++ [new_id])%list) /\
       (refresh_fails env = true \/ enqueue_fails env = true ->
          answer = HTTPException 500 "Failed to create support request" /\
          processing_queue w' = processing_queue w)) /\
  (processing_queue w' = processing_queue w \/
   exists new_id row, answer = Answer (new_id, row) /\
     processing_queue w' = (processing_queue w ++ [new_id])%list) /\
  (fst (submit_support_request_form env data w) =
     match answer with
     | Answer (new_id, _) => SuccessPage new_id
     | HTTPException _ _ => ErrorPage "Failed to submit support request. Please try again."
     end /\
   snd (submit_support_request_form env data w) = w').
Proof.
  cbv zeta. unfold create_support_request, submit_support_request_form, create_and_enqueue.
  destruct (insert env) as [[[new_id t_created] t_updated]|].
  2: { cbn [fst snd]. split; [intros _; split; reflexivity|].
       split; [discriminate|]. split; [now left|]. split; reflexivity. }
  destruct (refresh_fails env) eqn:Hrefresh; [|destruct (enqueue_fails env) eqn:Henq];
    cbn [fst snd rows processing_queue];
    (split; [discriminate|]);
    (split;
     [ intros ? ? ? [= <- <- <-]; eexists; split; [reflexivity|];
       unfold get_support_request; cbn [rows];
       split; [now rewrite lookup_insert_eq|];
       split; [intros other Hother; apply not_eq_sym in Hother;
               now rewrite lookup_insert_ne by assumption|];
       repeat (split; [reflexivity|]);
       split; [intros [? ?]; first [discriminate | split; reflexivity]
              |intros [?|?]; first [discriminate | split; reflexivity]]
     | ]).
  - split; [now left|]. split; reflexivity.
  - split; [now left|]. split; reflexivity.
  - split; [right; now eexists _, _|]. split; reflexivity.
Qed.

(** From the form to the finished row: a request created through the
    endpoint and then processed in a run whose commits and enqueue go
    through ends up completed under its id, with the classifier's
    category and summary for the submitted subject and description, the
    submitted fields intact; a notification task is enqueued for the id
    exactly when that category is cancellation_request. *)
Theorem created_request_is_processed
    (json_loads : string -> option pyval) (re_findall : string -> list string)
    (cenv : create_env) (penv : processing_env) (data : SupportRequestCreate)
    (w : web_world) (new_id t_created t_updated t1 t2 : Z) :
  insert cenv = Some (new_id, t_created, t_updated) ->
  refresh_fails cenv = false ->
  enqueue_fails cenv = false ->
  query_fails penv = false ->
  commit_processing penv = CommitOk t1 ->
  commit_completed penv = CommitOk t2 ->
  delay_fails penv = false ->
  let web := snd (create_support_request cenv data w) in
  let run := process_support_request json_loads re_findall penv new_id
               {| store := rows web; effects := [] |} in
  In new_id (processing_queue web) /\
  exists ai row,
    Classifier.classify_request json_loads re_findall (classifier_config penv) (ollama penv)
      (new_subject data) (new_description data) = inr ai /\
    fst run = inr (Some {| result_request_id := new_id;
                           result_category := Classifier.category ai;
                           result_summary := Classifier.summary ai |}) /\
    store (snd run) !! new_id = Some row /\
    processing_status row = "completed" /\
    category row = Some (Classifier.category ai) /\
    ai_summary row = Some (Classifier.summary ai) /\
    processed_at row = Some (processed_now penv) /\
    customer_name row = new_customer_name data /\ email row = new_email data /\
    subject row = new_subject data /\ description row = new_description data /\
    created_at row = t_created /\ notification_sent row = "false" /\
    (Classifier.category ai = "cancellation_request" ->
       enqueued (snd run) = [Enqueued new_id]) /\
    (Classifier.category ai <> "cancellation_request" -> enqueued (snd run) = []).
Proof.
  intros Hins Hrefresh Henq Hq Hc1 Hc2 Hdelay web run.
  assert (Hweb : web = {| rows := <[new_id :=
                            {| customer_name := new_customer_name data;
                               email := new_email data;
                               subject := new_subject data;
                               description := new_description data;
                               category := None; ai_summary := None;
                               processing_status := "pending";
                               notification_sent := "false";
                               created_at := t_created; updated_at := t_updated;
                               processed_at := None |}]> (rows w);
                          processing_queue := (processing_queue w ++ [new_id])%list |}).
  { subst web. unfold create_support_request, create_and_enqueue.
    now rewrite Hins, Hrefresh, Henq. }
  split; [rewrite Hweb; cbn [processing_queue]; apply in_or_app; right; now left|].
  destruct (ClassifierProps.classify_request_returns json_loads re_findall
              (classifier_config penv) (ollama penv) (new_subject data) (new_description data))
    as [ai Hai].
  exists ai.
  set (row0 := {| customer_name := new_customer_name data;
                  email := new_email data;
                  subject := new_subject data;
                  description := new_description data;
                  category := None; ai_summary := None;
                  processing_status := "pending";
                  notification_sent := "false";
                  created_at := t_created; updated_at := t_updated;
                  processed_at := None |}) in *.
  assert (Hrow0 : store {| store := rows web; effects := [] |} !! new_id = Some row0).
  { rewrite Hweb. cbn [store rows]. apply lookup_insert_eq. }
  assert (Hpending : processing_status row0 <> "completed") by discriminate.
  pose proof (ProcessingProps.process_run_to_completion json_loads re_findall penv new_id
                {| store := rows web; effects := [] |} row0 t1 t2 ai
                Hq Hrow0 Hpending Hc1 Hc2 Hai) as Hrun.
  cbv zeta in Hrun. rewrite Hdelay in Hrun. fold run in Hrun. rewrite Hrun.
  destruct (String.eqb (Classifier.category ai) "cancellation_request") eqn:Hcat;
    cbn [fst snd store effects]; eexists;
    (split; [exact Hai|]); (split; [reflexivity|]);
    (split; [apply lookup_insert_eq|]);
    repeat (split; [reflexivity|]).
  - apply String.eqb_eq in Hcat. intros Hne. now contradiction Hne.
  - apply String.eqb_neq in Hcat. split; [intros Heq; now contradiction Hcat | reflexivity].
Qed.

Lemma created_request_is_processed_witness :
  exists row,
    store (snd (process_support_request no_json no_matches (quiet_run 1010 1015 1020 1030) 7
                  {| store := rows (snd (create_support_request (creation 7) john empty_web));
                     effects := [] |})) !! 7 = Some row /\
    processing_status row = "completed" /\
    customer_name row = "John Smith".
Proof.
  destruct (created_request_is_processed no_json no_matches (creation 7)
              (quiet_run 1010 1015 1020 1030) john empty_web 7 1000 1000 1010 1020)
    as (_ & ai & row & _ & _ & Hrow & Hstatus & _ & _ & _ & Hname & _); try reflexivity.
  exists row. split; [exact Hrow|]. split; [exact Hstatus | exact Hname].
Defined.

End MainProps.
